(** * cha-InsecureDefaultConfigReporter: a shallow embedding of [src/main.py]

    The program loads a YAML or JSON configuration file, optionally validates
    it against a JSON schema with the [jsonschema] library, and then looks for
    two default passwords among the keys of the loaded document.

    The embedding keeps the shape of the Python code: parsed documents are a
    tagged union, exceptions are values with a class and a message, and the
    functions of [main.py] are written in a small monad that records the calls
    made to the outside world (file system, parsers, validator, logger) and
    either returns a value or raises an exception.  The outside world itself
    is a record of functions, [World]. *)

From Stdlib Require Import String Ascii List ZArith Bool Arith Lia.
Import ListNotations.
Open Scope string_scope.

#[local] Set Warnings "-register-all".

(** ** Parsed documents

    What [yaml.safe_load] and [json.load] return: [None], [bool], [int],
    [float], [str], [list] and [dict].  A dictionary is kept as the list of
    its items in insertion order; keys are strings, as in JSON.  A float is
    kept as the 64 bits of its IEEE representation: no operation of the
    program looks inside a number. *)
Inductive Value : Type :=
| VNull
| VBool (b : bool)
| VInt (z : Z)
| VFloat (bits : Z)
| VStr (s : string)
| VList (xs : list Value)
| VDict (items : list (string * Value)).

(** [d.get(key)]: the value stored under [key], if any. *)
Fixpoint dict_get (key : string) (items : list (string * Value)) : option Value :=
  match items with
  | [] => None
  | (k, v) :: rest => if String.eqb key k then Some v else dict_get key rest
  end.

(** [key in d] for a dictionary. *)
Definition dict_has (key : string) (items : list (string * Value)) : bool :=
  existsb (fun kv => String.eqb key (fst kv)) items.

(** [v == s] for a string literal [s]: only an equal [str] compares equal. *)
Definition py_eq_str (v : Value) (s : string) : bool :=
  match v with
  | VStr t => String.eqb t s
  | _ => false
  end.

(** [needle in hay] for two strings: substring search. *)
Fixpoint str_contains (needle hay : string) : bool :=
  String.prefix needle hay ||
  match hay with
  | EmptyString => false
  | String _ rest => str_contains needle rest
  end.

(** [s.endswith(suffix)]. *)
Definition endswith (s suffix : string) : bool :=
  let n := String.length s in
  let m := String.length suffix in
  (m <=? n)%nat && String.eqb (String.substring (n - m) m s) suffix.

(** ** Exceptions *)

Inductive ExcClass : Type :=
| Exception
| OSError
| FileNotFoundError
| ValueError
| UnicodeDecodeError
| JSONDecodeError
| YAMLError
| MarkedYAMLError
| ValidationError
| SchemaError
| TypeError
| KeyError.

Definition ExcClass_eqb (a b : ExcClass) : bool :=
  match a, b with
  | Exception, Exception | OSError, OSError
  | FileNotFoundError, FileNotFoundError | ValueError, ValueError
  | UnicodeDecodeError, UnicodeDecodeError | JSONDecodeError, JSONDecodeError
  | YAMLError, YAMLError | MarkedYAMLError, MarkedYAMLError
  | ValidationError, ValidationError | SchemaError, SchemaError
  | TypeError, TypeError | KeyError, KeyError => true
  | _, _ => false
  end.

(** The classes an exception class derives from, itself first. *)
Definition mro (c : ExcClass) : list ExcClass :=
  match c with
  | Exception => [Exception]
  | OSError => [OSError; Exception]
  | FileNotFoundError => [FileNotFoundError; OSError; Exception]
  | ValueError => [ValueError; Exception]
  | UnicodeDecodeError => [UnicodeDecodeError; ValueError; Exception]
  | JSONDecodeError => [JSONDecodeError; ValueError; Exception]
  | YAMLError => [YAMLError; Exception]
  | MarkedYAMLError => [MarkedYAMLError; YAMLError; Exception]
  | ValidationError => [ValidationError; Exception]
  | SchemaError => [SchemaError; Exception]
  | TypeError => [TypeError; Exception]
  | KeyError => [KeyError; Exception]
  end.

(** An exception object.  [exc_msg] is the message it was built with;
    [exc_loc] is what [json.JSONDecodeError] appends to it from its [doc] and
    [pos] arguments (": line l column c (char p)"), empty for other classes. *)
Record Exc : Type := mkExc {
  exc_class : ExcClass;
  exc_msg : string;
  exc_loc : string
}.

(** [str(e)] *)
Definition py_str (e : Exc) : string := exc_msg e ++ exc_loc e.

(** [isinstance(e, c)], what an [except c] clause tests. *)
Definition isinstance (e : Exc) (c : ExcClass) : bool :=
  existsb (ExcClass_eqb c) (mro (exc_class e)).

Definition new_exc (c : ExcClass) (msg : string) : Exc := mkExc c msg "".

(** ** Calls to the outside world *)

Inductive Level : Type := DEBUG | INFO | WARNING | ERROR | CRITICAL.

Inductive Event : Type :=
| EvSetLevel (lvl : Level)                (* logging.getLogger().setLevel *)
| EvExists (path : string)                (* os.path.exists *)
| EvOpen (path : string)                  (* open(path, 'r') *)
| EvYamlLoad (text : string)              (* yaml.safe_load *)
| EvJsonLoad (text : string)              (* json.load *)
| EvValidate (instance schema : Value)    (* jsonschema.validate *)
| EvLog (lvl : Level) (msg : string)      (* logging.<lvl>(msg) *)
| EvLogExc (lvl : Level) (e : Exc)        (* logging.<lvl>(e), e an exception *)
| EvExit (code : Z).                      (* sys.exit *)

(** The libraries and the file system the program runs against.  [open_read]
    gives the text of the file or the exception [open] raises; the parsers
    give the parsed document or the exception they raise; the validator
    returns [None] when it returns and [Some e] when it raises [e]. *)
Record World : Type := mkWorld {
  os_path_exists : string -> bool;
  open_read : string -> Exc + string;
  yaml_safe_load : string -> Exc + Value;
  json_load : string -> Exc + Value;
  jsonschema_validate : Value -> Value -> option Exc
}.

(** ** The monad of the program: the calls made so far, and a value or a
    raised exception. *)
Definition M (A : Type) : Type := list Event * (Exc + A).

Definition ret {A} (a : A) : M A := ([], inr a).

Definition raise {A} (e : Exc) : M A := ([], inl e).

Definition bind {A B} (m : M A) (k : A -> M B) : M B :=
  match m with
  | (t, inl e) => (t, inl e)
  | (t, inr a) => let '(t', r) := k a in ((t ++ t')%list, r)
  end.

(** [try: m except Exception as e: h e] *)
Definition try_except {A} (m : M A) (h : Exc -> M A) : M A :=
  match m with
  | (t, inl e) => let '(t', r) := h e in ((t ++ t')%list, r)
  | (t, inr a) => (t, inr a)
  end.

Definition emit (ev : Event) : M unit := ([ev], inr tt).

Definition call {A} (ev : Event) (r : Exc + A) : M A := ([ev], r).

Definition trace {A} (m : M A) : list Event := fst m.
Definition outcome {A} (m : M A) : Exc + A := snd m.

Declare Scope py_scope.
Delimit Scope py_scope with py.
Notation "x <- m ;; k" := (bind m (fun x => k))
  (at level 61, m at next level, right associativity) : py_scope.
Notation "m ;;; k" := (bind m (fun _ => k))
  (at level 61, right associativity) : py_scope.
Open Scope py_scope.

Definition logging (lvl : Level) (msg : string) : M unit := emit (EvLog lvl msg).

(** ** [load_config_file] (main.py, lines 23-66) *)
Definition load_config_file (w : World) (config_file : string)
    (file_type : option string) : M Value :=
  ex <- call (EvExists config_file) (inr (os_path_exists w config_file)) ;;
  if negb ex then
    raise (new_exc FileNotFoundError ("Configuration file not found: " ++ config_file))
  else
    try_except
      (f <- call (EvOpen config_file) (open_read w config_file) ;;
       file_type <-
         match file_type with
         | None =>
             if endswith config_file ".yaml" || endswith config_file ".yml" then
               ret "yaml"
             else if endswith config_file ".json" then
               ret "json"
             else
               raise (new_exc ValueError
                        "Could not determine the file type. Please specify with --type")
         | Some t => ret t
         end ;;
       if String.eqb file_type "yaml" then
         call (EvYamlLoad f) (yaml_safe_load w f)
       else if String.eqb file_type "json" then
         call (EvJsonLoad f) (json_load w f)
       else
         raise (new_exc ValueError
                  "Unsupported configuration file type. Choose 'yaml' or 'json'."))
      (fun e =>
         if isinstance e YAMLError then
           raise (new_exc YAMLError ("Error parsing YAML file: " ++ py_str e))
         else if isinstance e JSONDecodeError then
           raise (mkExc JSONDecodeError ("Error parsing JSON file: " ++ py_str e)
                        (exc_loc e))
         else
           raise (new_exc Exception
                    ("An unexpected error occurred while loading the configuration: "
                       ++ py_str e))).

(** ** [load_schema_file] (main.py, lines 68-91) *)
Definition load_schema_file (w : World) (schema_file : string) : M Value :=
  ex <- call (EvExists schema_file) (inr (os_path_exists w schema_file)) ;;
  if negb ex then
    raise (new_exc FileNotFoundError ("Schema file not found: " ++ schema_file))
  else
    try_except
      (f <- call (EvOpen schema_file) (open_read w schema_file) ;;
       call (EvJsonLoad f) (json_load w f))
      (fun e =>
         if isinstance e JSONDecodeError then
           raise (mkExc JSONDecodeError ("Error parsing JSON schema file: " ++ py_str e)
                        (exc_loc e))
         else
           raise (new_exc Exception
                    ("An unexpected error occurred while loading the schema: "
                       ++ py_str e))).

(** ** [validate_config] (main.py, lines 93-112) *)
Definition validate_config (w : World) (config_data schema_data : Value) : M unit :=
  try_except
    (call (EvValidate config_data schema_data)
          (match jsonschema_validate w config_data schema_data with
           | None => inr tt
           | Some e => inl e
           end))
    (fun e =>
       if isinstance e ValidationError then
         raise (new_exc ValidationError ("Configuration validation error: " ++ py_str e))
       else
         raise (new_exc Exception
                  ("An unexpected error occurred during validation: " ++ py_str e))).

(** ** The default-password checks (main.py, lines 140-147)

    The checks are written inline in [main]; they are given a name here.
    [py_contains] is the [in] operator with a string on its left and
    [py_getitem] is subscription by a string, each with the [TypeError] that
    Python raises for the kinds of value that do not support it. *)
Definition type_name (v : Value) : string :=
  match v with
  | VNull => "NoneType"
  | VBool _ => "bool"
  | VInt _ => "int"
  | VFloat _ => "float"
  | VStr _ => "str"
  | VList _ => "list"
  | VDict _ => "dict"
  end.

Definition py_contains (key : string) (container : Value) : Exc + bool :=
  match container with
  | VDict items => inr (dict_has key items)
  | VList xs => inr (existsb (fun x => py_eq_str x key) xs)
  | VStr s => inr (str_contains key s)
  | v => inl (new_exc TypeError
                ("argument of type '" ++ type_name v ++ "' is not iterable"))
  end.

Definition py_getitem (container : Value) (key : string) : Exc + Value :=
  match container with
  | VDict items =>
      match dict_get key items with
      | Some v => inr v
      | None => inl (new_exc KeyError ("'" ++ key ++ "'"))
      end
  | VList _ => inl (new_exc TypeError "list indices must be integers or slices, not str")
  | VStr _ => inl (new_exc TypeError "string indices must be integers, not 'str'")
  | v => inl (new_exc TypeError ("'" ++ type_name v ++ "' object is not subscriptable"))
  end.

Definition lift {A} (r : Exc + A) : M A := ([], r).

(** [key in config_data and config_data[key] == forbidden] *)
Definition has_default (config_data : Value) (key forbidden : string) : M bool :=
  present <- lift (py_contains key config_data) ;;
  if present then
    v <- lift (py_getitem config_data key) ;;
    ret (py_eq_str v forbidden)
  else
    ret false.

Definition msg_default_password : string :=
  "Insecure default password detected. Please change it.".
Definition msg_default_admin_password : string :=
  "Insecure default admin password detected. Please change it.".
Definition msg_no_default : string := "No default password found".

Definition default_password_checks (config_data : Value) : M unit :=
  c1 <- has_default config_data "password" "password" ;;
  if c1 then
    logging WARNING msg_default_password
  else
    c2 <- has_default config_data "admin_password" "admin" ;;
    if c2 then
      logging WARNING msg_default_admin_password
    else
      logging INFO msg_no_default.

(** ** [main] (main.py, lines 114-167) *)
Record Args : Type := mkArgs {
  arg_config_file : string;
  arg_schema_file : option string;   (* --schema_file, [None] when absent *)
  arg_type : option string;          (* --type, [None] when absent *)
  arg_log_level : Level
}.

Definition msg_valid : string := "Configuration is valid according to the schema.".
Definition msg_skipping : string := "No schema file provided. Skipping validation.".

(** The body of the [try] statement, lines 125-147.  [if args.schema_file:]
    is false for [None] and for the empty string. *)
Definition main_try (w : World) (args : Args) : M unit :=
  config_data <- load_config_file w (arg_config_file args) (arg_type args) ;;
  logging DEBUG ("Configuration loaded successfully from: " ++ arg_config_file args) ;;;
  match arg_schema_file args with
  | Some (String c s) =>
      schema_data <- load_schema_file w (String c s) ;;
      logging DEBUG ("Schema loaded successfully from: " ++ String c s) ;;;
      validate_config w config_data schema_data ;;;
      logging INFO msg_valid
  | _ => logging WARNING msg_skipping
  end ;;;
  default_password_checks config_data.

(** The [except] clauses, lines 150-167, tried in order; each logs and calls
    [sys.exit(1)].  Every class of the model derives from [Exception], so the
    last clause catches what the others do not. *)
Definition except_log (e : Exc) : Event :=
  if isinstance e FileNotFoundError then EvLogExc ERROR e
  else if isinstance e ValueError then EvLogExc ERROR e
  else if isinstance e YAMLError then EvLogExc ERROR e
  else if isinstance e JSONDecodeError then EvLogExc ERROR e
  else if isinstance e ValidationError then EvLogExc ERROR e
  else EvLog ERROR ("An unexpected error occurred: " ++ py_str e).

(** A run of the program: the calls it made and its exit status. *)
Definition main (w : World) (args : Args) : list Event * Z :=
  let '(t, r) := emit (EvSetLevel (arg_log_level args)) ;;; main_try w args in
  match r with
  | inr _ => (t, 0%Z)
  | inl e => ((t ++ [except_log e; EvExit 1])%list, 1%Z)
  end.

(** ** Reading a run

    The program has no report object: what a run reports is what it logs.
    A finding is one of the two warnings of the default-password checks; a
    reported violation is a [ValidationError]; the run declares the document
    valid by the info line of line 136 and unvalidated by the warning of
    line 138. *)
Inductive Finding : Type := DefaultPassword | DefaultAdminPassword.

Definition finding_of (ev : Event) : list Finding :=
  match ev with
  | EvLog WARNING msg =>
      if String.eqb msg msg_default_password then [DefaultPassword]
      else if String.eqb msg msg_default_admin_password then [DefaultAdminPassword]
      else []
  | _ => []
  end.

Definition findings (t : list Event) : list Finding := flat_map finding_of t.

(** The violations a call of [validate_config] reports to its caller. *)
Definition reported_violations {A} (m : M A) : list Exc :=
  match outcome m with
  | inl e => if isinstance e ValidationError then [e] else []
  | inr _ => []
  end.

Definition logged_violation (ev : Event) : list Exc :=
  match ev with
  | EvLogExc _ e => if isinstance e ValidationError then [e] else []
  | _ => []
  end.

(** The violations a run logs. *)
Definition logged_violations (t : list Event) : list Exc := flat_map logged_violation t.

Definition is_log (lvl : Level) (msg : string) (ev : Event) : bool :=
  match ev with
  | EvLog l m =>
      match l, lvl with
      | DEBUG, DEBUG | INFO, INFO | WARNING, WARNING | ERROR, ERROR
      | CRITICAL, CRITICAL => String.eqb m msg
      | _, _ => false
      end
  | _ => false
  end.

Definition declared_valid (t : list Event) : bool := existsb (is_log INFO msg_valid) t.
Definition declared_unvalidated (t : list Event) : bool :=
  existsb (is_log WARNING msg_skipping) t.

Definition is_validate (ev : Event) : bool :=
  match ev with EvValidate _ _ => true | _ => false end.

Definition is_open (ev : Event) : bool :=
  match ev with EvOpen _ => true | _ => false end.

(** An event only the default-password checks produce. *)
Definition is_scan (ev : Event) : bool :=
  is_log WARNING msg_default_password ev
  || is_log WARNING msg_default_admin_password ev
  || is_log INFO msg_no_default ev.

Definition validation_ran (t : list Event) : bool := existsb is_validate t.
Definition scan_ran (t : list Event) : bool := existsb is_scan t.

(** ** Notions used to state the properties *)

(** The classes of the exceptions the two loaders let out. *)
Definition loader_class (c : ExcClass) : bool :=
  match c with
  | FileNotFoundError | YAMLError | JSONDecodeError | Exception => true
  | _ => false
  end.

(** Events that are calls to the file system or to a parser. *)
Definition is_io (ev : Event) : bool :=
  match ev with
  | EvExists _ | EvOpen _ | EvYamlLoad _ | EvJsonLoad _ => true
  | _ => false
  end.

(** [d.get(key) == forbidden] *)
Definition holds_default (items : list (string * Value)) (key forbidden : string) : bool :=
  match dict_get key items with
  | Some v => py_eq_str v forbidden
  | None => false
  end.

(** A path with none of the three known suffixes. *)
Definition unresolvable (path : string) : bool :=
  negb (endswith path ".yaml" || endswith path ".yml" || endswith path ".json").

(** The [type] a JSON schema node declares, if it is a string. *)
Definition declared_type (schema : Value) : option string :=
  match schema with
  | VDict items =>
      match dict_get "type" items with
      | Some (VStr t) => Some t
      | _ => None
      end
  | _ => None
  end.

Definition recognized_type (t : string) : bool :=
  existsb (String.eqb t)
    ["null"; "boolean"; "number"; "integer"; "string"; "array"; "object"].

(** Lines 129-138 of [main]: the stage between loading and scanning. *)
Definition validation_stage (w : World) (args : Args) (config_data : Value) : M unit :=
  match arg_schema_file args with
  | Some (String c s) =>
      schema_data <- load_schema_file w (String c s) ;;
      logging DEBUG ("Schema loaded successfully from: " ++ String c s) ;;;
      validate_config w config_data schema_data ;;;
      logging INFO msg_valid
  | _ => logging WARNING msg_skipping
  end.

(** Loading the document fails. *)
Definition document_load_fails (w : World) (args : Args) : Prop :=
  exists t e, load_config_file w (arg_config_file args) (arg_type args) = (t, inl e).

(** A schema path is given and loading the schema fails. *)
Definition schema_load_fails (w : World) (args : Args) : Prop :=
  exists c s t e,
    arg_schema_file args = Some (String c s)
    /\ load_schema_file w (String c s) = (t, inl e).

(** What a run does before it validates: file-system and parser calls, and
    debug lines. *)
Definition is_loading (ev : Event) : bool :=
  is_io ev || match ev with EvLog DEBUG _ => true | _ => false end.

(** The two formats of a configuration file. *)
Inductive Format : Type := Yaml | Json.

(** The format lines 47-50 of [load_config_file] read off the path. *)
Definition format_of_path (path : string) : option Format :=
  if endswith path ".yaml" || endswith path ".yml" then Some Yaml
  else if endswith path ".json" then Some Json
  else None.

(** The format lines 54-57 of [load_config_file] read off a type name. *)
Definition format_of_type (t : string) : option Format :=
  if String.eqb t "yaml" then Some Yaml
  else if String.eqb t "json" then Some Json
  else None.

(** The format a call [load_config_file path file_type] settles on. *)
Definition resolved_format (path : string) (file_type : option string) : option Format :=
  match file_type with
  | Some t => format_of_type t
  | None => format_of_path path
  end.

Definition parse_event (fmt : Format) (text : string) : Event :=
  match fmt with Yaml => EvYamlLoad text | Json => EvJsonLoad text end.

Definition parse_result (w : World) (fmt : Format) (text : string) : Exc + Value :=
  match fmt with Yaml => yaml_safe_load w text | Json => json_load w text end.

(** The exception the [except] clauses of [load_config_file] (lines 61-66)
    raise for an exception [e] of the [try] body. *)
Definition load_config_error (e : Exc) : Exc :=
  if isinstance e YAMLError then
    new_exc YAMLError ("Error parsing YAML file: " ++ py_str e)
  else if isinstance e JSONDecodeError then
    mkExc JSONDecodeError ("Error parsing JSON file: " ++ py_str e) (exc_loc e)
  else
    new_exc Exception
      ("An unexpected error occurred while loading the configuration: " ++ py_str e).

(** The exception the [except] clauses of [load_schema_file] (lines 88-91)
    raise for an exception [e] of the [try] body. *)
Definition load_schema_error (e : Exc) : Exc :=
  if isinstance e JSONDecodeError then
    mkExc JSONDecodeError ("Error parsing JSON schema file: " ++ py_str e) (exc_loc e)
  else
    new_exc Exception
      ("An unexpected error occurred while loading the schema: " ++ py_str e).

(** Error lines and calls of [sys.exit]. *)
Definition is_error_log (ev : Event) : bool :=
  match ev with
  | EvLog ERROR _ | EvLogExc ERROR _ => true
  | _ => false
  end.

Definition is_exit (ev : Event) : bool :=
  match ev with EvExit _ => true | _ => false end.

(** The documents on which the default-password checks return: every
    dictionary, a list with neither word among its elements, a string in
    which "password" does not occur. *)
Definition checks_return (d : Value) : bool :=
  match d with
  | VDict _ => true
  | VList xs =>
      negb (existsb (fun x => py_eq_str x "password") xs)
      && negb (existsb (fun x => py_eq_str x "admin_password") xs)
  | VStr s => negb (str_contains "password" s)
  | _ => false
  end.

Definition msg_undetermined : string :=
  "Could not determine the file type. Please specify with --type".
Definition msg_unsupported : string :=
  "Unsupported configuration file type. Choose 'yaml' or 'json'.".

Definition is_yaml_load (ev : Event) : bool :=
  match ev with EvYamlLoad _ => true | _ => false end.

(** Events that are neither an error line nor a call of [sys.exit]. *)
Definition is_calm (ev : Event) : bool := negb (is_error_log ev || is_exit ev).

(** The values [--type] can have after [parse_args]: absent, or one of the
    [choices] of line 19 of [setup_argparse]. *)
Definition cli_type (file_type : option string) : bool :=
  match file_type with
  | None => true
  | Some t => existsb (String.eqb t) ["yaml"; "json"]
  end.

(** ** The validator the specification describes

    [main.py] has no validator of its own: it calls [jsonschema.validate].
    The definitions of this module follow the words of the specification
    (sections 3 and 4.3), so that "every violation of a document" has a
    meaning the behaviour of [validate_config] can be compared with.  The
    message of a violation, free text in the specification, is left out. *)
Module SpecValidator.

#[local] Open Scope list_scope.

Inductive SType : Type :=
  TNull | TBoolean | TNumber | TInteger | TString | TArray | TObject.

Inductive SchemaNode : Type :=
| mkSchema (ty : option SType)
           (required : list string)
           (properties : list (string * SchemaNode))
           (additional_allowed : bool)
           (items : option SchemaNode)
           (enum : option (list Value)).

Inductive PathSeg : Type := Key (k : string) | Index (i : nat).

Inductive ViolationKind : Type :=
  TypeMismatch | MissingRequired | EnumMismatch | UnexpectedProperty.

Record Violation : Type := mkViolation {
  v_kind : ViolationKind;
  v_path : list PathSeg
}.

(** Numbers and integers are compatible; every other match is exact. *)
Definition type_matches (t : SType) (v : Value) : bool :=
  match t, v with
  | TNull, VNull | TBoolean, VBool _ | TString, VStr _
  | TArray, VList _ | TObject, VDict _ => true
  | (TNumber | TInteger), (VInt _ | VFloat _) => true
  | _, _ => false
  end.

(** Structural equality of documents, for [enum]. *)
Fixpoint value_eqb (a b : Value) : bool :=
  match a, b with
  | VNull, VNull => true
  | VBool x, VBool y => Bool.eqb x y
  | VInt x, VInt y => Z.eqb x y
  | VFloat x, VFloat y => Z.eqb x y
  | VStr x, VStr y => String.eqb x y
  | VList xs, VList ys =>
      (fix all2 (l : list Value) (r : list Value) : bool :=
         match l, r with
         | [], [] => true
         | x :: l', y :: r' => value_eqb x y && all2 l' r'
         | _, _ => false
         end) xs ys
  | VDict xs, VDict ys =>
      (fix all2 (l : list (string * Value)) (r : list (string * Value)) : bool :=
         match l, r with
         | [], [] => true
         | (k, x) :: l', (k', y) :: r' => String.eqb k k' && value_eqb x y && all2 l' r'
         | _, _ => false
         end) xs ys
  | _, _ => false
  end.

Definition has_key {A} (k : string) (l : list (string * A)) : bool :=
  existsb (fun kv => String.eqb k (fst kv)) l.

(** Steps 1 to 5 of section 4.3 at the node [v] of path [p]. *)
Fixpoint validate_at (s : SchemaNode) (v : Value) (p : list PathSeg) : list Violation :=
  match s with
  | mkSchema ty required properties additional_allowed items enum =>
      if match ty with Some t => negb (type_matches t v) | None => false end then
        [mkViolation TypeMismatch p]
      else
        (match v with
         | VDict kvs =>
             map (fun k => mkViolation MissingRequired (p ++ [Key k]))
                 (filter (fun k => negb (dict_has k kvs)) required)
             ++ (fix props (ps : list (string * SchemaNode)) : list Violation :=
                   match ps with
                   | [] => []
                   | (k, s') :: ps' =>
                       match dict_get k kvs with
                       | Some v' => validate_at s' v' (p ++ [Key k])
                       | None => []
                       end ++ props ps'
                   end) properties
             ++ (if additional_allowed then []
                 else map (fun kv => mkViolation UnexpectedProperty (p ++ [Key (fst kv)]))
                          (filter (fun kv => negb (has_key (fst kv) properties)) kvs))
         | VList xs =>
             match items with
             | Some si =>
                 (fix elems (l : list Value) (i : nat) : list Violation :=
                    match l with
                    | [] => []
                    | x :: l' => validate_at si x (p ++ [Index i]) ++ elems l' (S i)
                    end) xs 0%nat
             | None => []
             end
         | _ => []
         end)
        ++ match enum with
           | Some allowed =>
               if existsb (value_eqb v) allowed then [] else [mkViolation EnumMismatch p]
           | None => []
           end
  end.

(** [validate(value, schema)] of the specification. *)
Definition validate (v : Value) (s : SchemaNode) : list Violation := validate_at s v [].

(** The schema node a parsed JSON schema with only a [required] list denotes. *)
Definition required_only (keys : list string) : SchemaNode :=
  mkSchema None keys [] true None None.

(** The violations of kind [MissingRequired] whose path ends in [k]. *)
Definition missing_of (k : string) (vs : list Violation) : list Violation :=
  filter (fun x =>
            match v_kind x, rev (v_path x) with
            | MissingRequired, Key k' :: _ => String.eqb k k'
            | _, _ => false
            end) vs.

End SpecValidator.

(** ** Concrete worlds

    A file system given by the text of its files, parsers given by the
    documents they produce for a text, and a validator. *)
Module Fixture.

Fixpoint assoc {A} (k : string) (l : list (string * A)) : option A :=
  match l with
  | [] => None
  | (k', a) :: rest => if String.eqb k k' then Some a else assoc k rest
  end.

Definition yaml_error : Exc :=
  mkExc MarkedYAMLError "while scanning a simple key" "".
Definition json_error : Exc :=
  mkExc JSONDecodeError "Expecting value" ": line 1 column 1 (char 0)".

Definition world (files : list (string * string))
    (yaml json : list (string * Value))
    (validator : Value -> Value -> option Exc) : World :=
  {| os_path_exists := fun p => match assoc p files with Some _ => true | None => false end;
     open_read := fun p =>
       match assoc p files with
       | Some text => inr text
       | None => inl (new_exc FileNotFoundError
                        ("[Errno 2] No such file or directory: '" ++ p ++ "'"))
       end;
     yaml_safe_load := fun text =>
       match assoc text yaml with Some v => inr v | None => inl yaml_error end;
     json_load := fun text =>
       match assoc text json with Some v => inr v | None => inl json_error end;
     jsonschema_validate := validator |}.

(** A validator that accepts everything, and one that rejects everything
    with a single [ValidationError]. *)
Definition accept_all (_ _ : Value) : option Exc := None.
Definition reject_all (_ _ : Value) : option Exc :=
  Some (new_exc ValidationError "'port' is a required property").

(** The double quote, for writing JSON text. *)
Definition dq : string := String (ascii_of_nat 34) EmptyString.

Definition nl : string := String (ascii_of_nat 10) EmptyString.
Definition both_text : string := "password: password" ++ nl ++ "admin_password: admin".
Definition host_text : string := "{" ++ dq ++ "host" ++ dq ++ ": " ++ dq ++ "x" ++ dq ++ "}".

Definition doc_both : Value :=
  VDict [("password", VStr "password"); ("admin_password", VStr "admin")].
Definition doc_nested : Value :=
  VDict [("db", VDict [("password", VStr "password"); ("admin_password", VStr "admin")])].
Definition schema_strng : Value := VDict [("type", VStr "strng")].
Definition schema_strng_text : string := "{" ++ dq ++ "type" ++ dq ++ ": " ++ dq ++ "strng" ++ dq ++ "}".

Definition files : list (string * string) :=
  [("config.yaml", "password: password");
   ("both.yml", both_text);
   ("empty.yaml", "");
   ("config.txt", "password: password");
   ("host.json", host_text);
   ("broken.json", "{");
   ("schema.json", schema_strng_text);
   ("broken_schema.json", "{")].

Definition yaml_docs : list (string * Value) :=
  [("password: password", VDict [("password", VStr "password")]);
   (both_text, doc_both);
   ("", VNull)].

Definition json_docs : list (string * Value) :=
  [(host_text, VDict [("host", VStr "x")]);
   (schema_strng_text, schema_strng)].

Definition w0 : World := world files yaml_docs json_docs accept_all.
Definition w_reject : World := world files yaml_docs json_docs reject_all.

End Fixture.

(** Two more worlds. *)

(** A world with one file, a schema written in YAML. *)
Definition w_yaml_schema : World :=
  Fixture.world [("schema.yaml", "type: object")]
    [("type: object", VDict [("type", VStr "object")])] [] Fixture.accept_all.

(** A validator that rejects every schema. *)
Definition reject_schema (_ _ : Value) : option Exc :=
  Some (new_exc SchemaError "'strng' is not valid under any of the given schemas").

(** * Properties *)

Arguments endswith : simpl never.
Arguments isinstance : simpl never.
Arguments py_str : simpl never.

(** ** Exceptions and loaders *)

Lemma isinstance_Exception e : isinstance e Exception = true.
Proof. destruct e as [[] m l]; reflexivity. Qed.

Ltac split_cases :=
  repeat match goal with
         | |- context [if ?b then _ else _] => destruct b eqn:?; simpl
         | |- context [match ?x with _ => _ end] => destruct x eqn:?; simpl
         end.

(** One case split on a call to the outside world or on a test of the code. *)
Ltac world_case :=
  match goal with
  | |- context [os_path_exists ?w ?p] => destruct (os_path_exists w p) eqn:?
  | |- context [open_read ?w ?p] => destruct (open_read w p) eqn:?
  | |- context [match ?ty with Some _ => _ | None => _ end] => is_var ty; destruct ty
  | |- context [endswith ?a ?b] => destruct (endswith a b) eqn:?
  | |- context [String.eqb ?a ?b] => destruct (String.eqb a b) eqn:?
  | |- context [yaml_safe_load ?w ?a] => destruct (yaml_safe_load w a) eqn:?
  | |- context [json_load ?w ?a] => destruct (json_load w a) eqn:?
  | |- context [jsonschema_validate ?w ?a ?b] => destruct (jsonschema_validate w a b) eqn:?
  | |- context [isinstance ?e ?c] => destruct (isinstance e c) eqn:?
  end.

Ltac run_loader :=
  unfold load_config_file, load_schema_file, validate_config,
    bind, try_except, call, ret, raise;
  simpl; repeat (world_case; simpl).

Lemma load_config_file_io w p ty :
  forallb is_io (trace (load_config_file w p ty)) = true.
Proof. run_loader; reflexivity. Qed.

Lemma load_schema_file_io w p :
  forallb is_io (trace (load_schema_file w p)) = true.
Proof. run_loader; reflexivity. Qed.

Lemma load_config_file_raises w p ty t e :
  load_config_file w p ty = (t, inl e) -> loader_class (exc_class e) = true.
Proof. run_loader; intros H; inversion H; reflexivity. Qed.

Lemma load_schema_file_raises w p t e :
  load_schema_file w p = (t, inl e) -> loader_class (exc_class e) = true.
Proof. run_loader; intros H; inversion H; reflexivity. Qed.

Lemma loader_class_not_validation e :
  loader_class (exc_class e) = true -> isinstance e ValidationError = false.
Proof. destruct e as [[] m l]; simpl; intros H; try discriminate H; reflexivity. Qed.

(** What an [except] clause of [main] logs is an error line: it is neither a
    call of the validator nor a line of the default-password checks. *)
Lemma except_log_plain e :
  is_validate (except_log e) = false /\ is_scan (except_log e) = false
  /\ is_log INFO msg_valid (except_log e) = false
  /\ is_log WARNING msg_skipping (except_log e) = false
  /\ finding_of (except_log e) = [].
Proof. unfold except_log; split_cases; repeat split; reflexivity. Qed.

Lemma io_plain ev :
  is_io ev = true ->
  is_validate ev = false /\ is_scan ev = false
  /\ is_log INFO msg_valid ev = false /\ is_log WARNING msg_skipping ev = false
  /\ logged_violation ev = [] /\ finding_of ev = [].
Proof. destruct ev; simpl; intros H; try discriminate H; repeat split; reflexivity. Qed.

Lemma existsb_none {A} (f g : A -> bool) (l : list A) :
  (forall x, g x = true -> f x = false) -> forallb g l = true -> existsb f l = false.
Proof.
  intros Hfg; induction l as [| x l IH]; simpl; [reflexivity |].
  intros H; apply andb_true_iff in H as [Hx Hl].
  now rewrite (Hfg x Hx), (IH Hl).
Qed.

Lemma flat_map_none {A B} (f : A -> list B) (g : A -> bool) (l : list A) :
  (forall x, g x = true -> f x = []) -> forallb g l = true -> flat_map f l = [].
Proof.
  intros Hfg; induction l as [| x l IH]; simpl; [reflexivity |].
  intros H; apply andb_true_iff in H as [Hx Hl].
  now rewrite (Hfg x Hx), (IH Hl).
Qed.

(** ** Dictionaries *)

Lemma dict_has_get key items :
  dict_has key items = match dict_get key items with Some _ => true | None => false end.
Proof.
  induction items as [| [k v] rest IH]; simpl; [reflexivity |].
  destruct (String.eqb key k); simpl; [reflexivity | exact IH].
Qed.

Lemma py_eq_str_true v s : py_eq_str v s = true <-> v = VStr s.
Proof.
  destruct v; simpl; split; intros H; try discriminate H.
  - apply String.eqb_eq in H; now subst.
  - inversion H; apply String.eqb_refl.
Qed.

Lemma holds_default_true items key forbidden :
  holds_default items key forbidden = true <-> dict_get key items = Some (VStr forbidden).
Proof.
  unfold holds_default; destruct (dict_get key items) as [v |].
  - rewrite py_eq_str_true; split; intros H; [now subst | now inversion H].
  - split; intros H; discriminate H.
Qed.

Lemma has_default_dict items key forbidden :
  has_default (VDict items) key forbidden = ([], inr (holds_default items key forbidden)).
Proof.
  unfold has_default, holds_default; simpl; rewrite dict_has_get.
  destruct (dict_get key items); reflexivity.
Qed.

(** On a dictionary the checks never raise: first match wins. *)
Lemma default_password_checks_dict items :
  default_password_checks (VDict items) =
  if holds_default items "password" "password" then
    ([EvLog WARNING msg_default_password], inr tt)
  else if holds_default items "admin_password" "admin" then
    ([EvLog WARNING msg_default_admin_password], inr tt)
  else
    ([EvLog INFO msg_no_default], inr tt).
Proof.
  unfold default_password_checks; rewrite !has_default_dict; simpl.
  destruct (holds_default items "password" "password"); [reflexivity |].
  destruct (holds_default items "admin_password" "admin"); reflexivity.
Qed.

(** ** Loading files *)

(** C9.  In [load_config_file] and in [load_schema_file] the existence check
    comes first: for a path that does not exist, the only call made is
    [os.path.exists] and [FileNotFoundError] is raised, whatever the suffix
    of the path and whatever the [--type] override. *)
Theorem missing_file_raises_FileNotFoundError w path file_type :
  os_path_exists w path = false ->
  load_config_file w path file_type =
    ([EvExists path],
     inl (new_exc FileNotFoundError ("Configuration file not found: " ++ path)))
  /\ load_schema_file w path =
    ([EvExists path],
     inl (new_exc FileNotFoundError ("Schema file not found: " ++ path))).
Proof.
  intros H; unfold load_config_file, load_schema_file, bind, call; simpl.
  rewrite H; simpl; split; reflexivity.
Qed.

Lemma missing_file_raises_FileNotFoundError_witness :
  unresolvable "missing.txt" = true
  /\ load_config_file Fixture.w0 "missing.txt" None =
       ([EvExists "missing.txt"],
        inl (new_exc FileNotFoundError "Configuration file not found: missing.txt"))
  /\ load_schema_file Fixture.w0 "missing.txt" =
       ([EvExists "missing.txt"],
        inl (new_exc FileNotFoundError "Schema file not found: missing.txt")).
Proof.
  split; [reflexivity |].
  apply (missing_file_raises_FileNotFoundError Fixture.w0 "missing.txt" None).
  reflexivity.
Defined.

(** C5, as stated, fails: for the existing file [config.txt], with no
    [--type], the file is opened before the suffix is looked at, and the
    exception that leaves [load_config_file] is not a [ValueError]. *)
Lemma unresolved_extension_opens_file_first :
  unresolvable "config.txt" = true
  /\ load_config_file Fixture.w0 "config.txt" None =
       ([EvExists "config.txt"; EvOpen "config.txt"],
        inl (new_exc Exception
               "An unexpected error occurred while loading the configuration: Could not determine the file type. Please specify with --type"))
  /\ existsb is_open (trace (load_config_file Fixture.w0 "config.txt" None)) = true
  /\ (forall e, outcome (load_config_file Fixture.w0 "config.txt" None) = inl e ->
                isinstance e ValueError = false).
Proof.
  repeat split; try reflexivity.
  intros e H; vm_compute in H; inversion H; reflexivity.
Qed.

(** C5, amended.  For a path that exists and has none of the suffixes
    [.yaml], [.yml], [.json], with no [--type] override, [load_config_file]
    fails after the file has been opened and before any parser is called; the
    run then logs one error and ends with status 1, without validating or
    scanning.  A path that does not exist fails with [FileNotFoundError]
    instead, after the existence check alone, and the run ends the same
    way. *)
Theorem unresolved_extension_fails_before_parsing w path schema_file lvl :
  unresolvable path = true ->
  if os_path_exists w path then
    exists e,
      load_config_file w path None = ([EvExists path; EvOpen path], inl e)
      /\ main w (mkArgs path schema_file None lvl) =
           ([EvSetLevel lvl; EvExists path; EvOpen path; except_log e; EvExit 1], 1%Z)
  else
    load_config_file w path None =
      ([EvExists path],
       inl (new_exc FileNotFoundError ("Configuration file not found: " ++ path)))
    /\ main w (mkArgs path schema_file None lvl) =
         ([EvSetLevel lvl; EvExists path;
           EvLogExc ERROR
             (new_exc FileNotFoundError ("Configuration file not found: " ++ path));
           EvExit 1], 1%Z).
Proof.
  unfold unresolvable; intros Hun.
  apply negb_true_iff in Hun.
  apply orb_false_iff in Hun as [Hun Hjson].
  destruct (os_path_exists w path) eqn:Hex.
  - assert (Hload : exists e,
               load_config_file w path None = ([EvExists path; EvOpen path], inl e)).
    { unfold load_config_file, bind, try_except, call, ret, raise; simpl.
      rewrite Hex, Hun, Hjson; simpl.
      destruct (open_read w path) as [e | text]; simpl.
      - repeat (world_case; simpl); eexists; reflexivity.
      - eexists; reflexivity. }
    destruct Hload as [e He]; exists e; split; [exact He |].
    unfold main, main_try, bind, emit; simpl; rewrite He; reflexivity.
  - assert (Hload : load_config_file w path None =
                      ([EvExists path],
                       inl (new_exc FileNotFoundError
                              ("Configuration file not found: " ++ path)))).
    { unfold load_config_file, bind, call, raise; simpl; rewrite Hex; reflexivity. }
    split; [exact Hload |].
    unfold main, main_try, bind, emit; simpl; rewrite Hload; reflexivity.
Qed.

Lemma unresolved_extension_fails_before_parsing_witness :
  (exists e,
     load_config_file Fixture.w0 "config.txt" None =
       ([EvExists "config.txt"; EvOpen "config.txt"], inl e)
     /\ main Fixture.w0 (mkArgs "config.txt" None None INFO) =
          ([EvSetLevel INFO; EvExists "config.txt"; EvOpen "config.txt";
            except_log e; EvExit 1], 1%Z))
  /\ (load_config_file Fixture.w0 "missing.txt" None =
        ([EvExists "missing.txt"],
         inl (new_exc FileNotFoundError "Configuration file not found: missing.txt"))
      /\ main Fixture.w0 (mkArgs "missing.txt" None None INFO) =
           ([EvSetLevel INFO; EvExists "missing.txt";
             EvLogExc ERROR
               (new_exc FileNotFoundError "Configuration file not found: missing.txt");
             EvExit 1], 1%Z)).
Proof.
  split.
  - apply (unresolved_extension_fails_before_parsing Fixture.w0 "config.txt" None INFO);
      reflexivity.
  - apply (unresolved_extension_fails_before_parsing Fixture.w0 "missing.txt" None INFO);
      reflexivity.
Defined.

(** What [load_schema_file] does with a file it could open. *)
Lemma load_schema_file_opened w path text :
  os_path_exists w path = true ->
  open_read w path = inr text ->
  load_schema_file w path =
    ([EvExists path; EvOpen path; EvJsonLoad text],
     match json_load w text with
     | inr schema => inr schema
     | inl e =>
         inl (if isinstance e JSONDecodeError then
                mkExc JSONDecodeError ("Error parsing JSON schema file: " ++ py_str e)
                      (exc_loc e)
              else
                new_exc Exception
                  ("An unexpected error occurred while loading the schema: " ++ py_str e))
     end).
Proof.
  intros Hex Hopen; unfold load_schema_file, bind, try_except, call, raise; simpl.
  rewrite Hex, Hopen; simpl.
  destruct (json_load w text) as [e | schema]; simpl; [| reflexivity].
  destruct (isinstance e JSONDecodeError); reflexivity.
Qed.

(** What [validate_config] does: one call of the library, one outcome. *)
Lemma validate_config_eq w config_data schema_data :
  validate_config w config_data schema_data =
    ([EvValidate config_data schema_data],
     match jsonschema_validate w config_data schema_data with
     | None => inr tt
     | Some e =>
         inl (if isinstance e ValidationError then
                new_exc ValidationError ("Configuration validation error: " ++ py_str e)
              else
                new_exc Exception
                  ("An unexpected error occurred during validation: " ++ py_str e))
     end).
Proof.
  unfold validate_config, try_except, call, raise.
  destruct (jsonschema_validate w config_data schema_data) as [e |]; simpl;
    [| reflexivity].
  destruct (isinstance e ValidationError); reflexivity.
Qed.

(** C4, as stated, fails: a schema file that is well-formed JSON and whose
    [type] is the unknown name [strng] is loaded without an error. *)
Lemma unknown_type_name_is_loaded :
  declared_type Fixture.schema_strng = Some "strng"
  /\ recognized_type "strng" = false
  /\ load_schema_file Fixture.w0 "schema.json" =
       ([EvExists "schema.json"; EvOpen "schema.json";
         EvJsonLoad Fixture.schema_strng_text],
        inr Fixture.schema_strng).
Proof. repeat split. Qed.

(** C4, amended.  [load_schema_file] fails on malformed JSON with a
    [JSONDecodeError] that wraps the parser's, and returns every document the
    JSON parser produces as it is, without looking at [type] values.  A schema
    is rejected only at validation, by the library: an exception of the
    library that is not a [ValidationError] leaves [validate_config] as a
    generic exception, a [ValidationError] leaves it as a [ValidationError],
    and [validate_config] returns only if the library returned. *)
Theorem schema_loading_checks_json_only w path text config_data :
  os_path_exists w path = true ->
  open_read w path = inr text ->
  match json_load w text with
  | inl e =>
      load_schema_file w path =
        ([EvExists path; EvOpen path; EvJsonLoad text],
         inl (if isinstance e JSONDecodeError then
                mkExc JSONDecodeError ("Error parsing JSON schema file: " ++ py_str e)
                      (exc_loc e)
              else
                new_exc Exception
                  ("An unexpected error occurred while loading the schema: "
                     ++ py_str e)))
  | inr schema =>
      load_schema_file w path =
        ([EvExists path; EvOpen path; EvJsonLoad text], inr schema)
      /\ outcome (validate_config w config_data schema) =
         match jsonschema_validate w config_data schema with
         | None => inr tt
         | Some e =>
             inl (if isinstance e ValidationError then
                    new_exc ValidationError
                      ("Configuration validation error: " ++ py_str e)
                  else
                    new_exc Exception
                      ("An unexpected error occurred during validation: " ++ py_str e))
         end
  end.
Proof.
  intros Hex Hopen.
  rewrite (load_schema_file_opened w path text Hex Hopen).
  destruct (json_load w text) as [e | schema].
  - reflexivity.
  - split; [reflexivity |].
    rewrite validate_config_eq; reflexivity.
Qed.

Lemma schema_loading_checks_json_only_witness :
  load_schema_file Fixture.w0 "broken_schema.json" =
    ([EvExists "broken_schema.json"; EvOpen "broken_schema.json"; EvJsonLoad "{"],
     inl (mkExc JSONDecodeError
            "Error parsing JSON schema file: Expecting value: line 1 column 1 (char 0)"
            ": line 1 column 1 (char 0)"))
  /\ load_schema_file Fixture.w0 "schema.json" =
       ([EvExists "schema.json"; EvOpen "schema.json";
         EvJsonLoad Fixture.schema_strng_text],
        inr Fixture.schema_strng)
  /\ outcome (validate_config Fixture.w0 VNull Fixture.schema_strng) = inr tt
  /\ outcome
       (validate_config
          (Fixture.world Fixture.files Fixture.yaml_docs Fixture.json_docs reject_schema)
          VNull Fixture.schema_strng) =
     inl (new_exc Exception
            "An unexpected error occurred during validation: 'strng' is not valid under any of the given schemas")
  /\ outcome (validate_config Fixture.w_reject VNull Fixture.schema_strng) =
     inl (new_exc ValidationError
            "Configuration validation error: 'port' is a required property").
Proof.
  split; [| split; [| split; [| split]]].
  - apply (schema_loading_checks_json_only Fixture.w0 "broken_schema.json" "{" VNull);
      reflexivity.
  - apply (schema_loading_checks_json_only Fixture.w0 "schema.json"
             Fixture.schema_strng_text VNull); reflexivity.
  - exact (proj2 (schema_loading_checks_json_only Fixture.w0 "schema.json"
                    Fixture.schema_strng_text VNull eq_refl eq_refl)).
  - exact (proj2 (schema_loading_checks_json_only
                    (Fixture.world Fixture.files Fixture.yaml_docs Fixture.json_docs
                       reject_schema)
                    "schema.json" Fixture.schema_strng_text VNull eq_refl eq_refl)).
  - exact (proj2 (schema_loading_checks_json_only Fixture.w_reject "schema.json"
                    Fixture.schema_strng_text VNull eq_refl eq_refl)).
Defined.

(** ** The default-password checks *)

(** C2, as stated, fails: on a document with both default passwords the
    checks log one finding, not two. *)
Lemma both_defaults_one_finding :
  dict_get "password"
    [("password", VStr "password"); ("admin_password", VStr "admin")] =
    Some (VStr "password")
  /\ dict_get "admin_password"
       [("password", VStr "password"); ("admin_password", VStr "admin")] =
       Some (VStr "admin")
  /\ findings (trace (default_password_checks Fixture.doc_both)) = [DefaultPassword]
  /\ length (findings (trace (default_password_checks Fixture.doc_both))) <> 2%nat.
Proof. repeat split; try reflexivity. simpl; discriminate. Qed.

(** C2, amended.  The two rules form an [if]/[elif] chain: on a document
    object with [password] equal to "password" and [admin_password] equal to
    "admin", the checks log exactly one finding, the one for [password]; the
    [admin_password] rule is not reached. *)
Theorem both_defaults_first_match_only items :
  dict_get "password" items = Some (VStr "password") ->
  dict_get "admin_password" items = Some (VStr "admin") ->
  default_password_checks (VDict items) =
    ([EvLog WARNING msg_default_password], inr tt)
  /\ findings (trace (default_password_checks (VDict items))) = [DefaultPassword].
Proof.
  intros Hpw _.
  apply holds_default_true in Hpw.
  rewrite default_password_checks_dict, Hpw; split; reflexivity.
Qed.

Lemma both_defaults_first_match_only_witness :
  default_password_checks Fixture.doc_both =
    ([EvLog WARNING msg_default_password], inr tt)
  /\ findings (trace (default_password_checks Fixture.doc_both)) = [DefaultPassword].
Proof.
  apply (both_defaults_first_match_only
           [("password", VStr "password"); ("admin_password", VStr "admin")]);
    reflexivity.
Defined.

(** The findings of the checks on a dictionary, rule by rule. *)
Lemma findings_dict items :
  findings (trace (default_password_checks (VDict items))) =
  if holds_default items "password" "password" then [DefaultPassword]
  else if holds_default items "admin_password" "admin" then [DefaultAdminPassword]
  else [].
Proof.
  rewrite default_password_checks_dict.
  destruct (holds_default items "password" "password"); [reflexivity |].
  destruct (holds_default items "admin_password" "admin"); reflexivity.
Qed.

(** C3.  On [{password: password}] the checks yield exactly one finding, the
    one of the [password] rule; on [{password: S3cure!}] they yield none.
    Matching is exact: on any document object the [password] finding is
    reported exactly when the key [password] is present with the string
    "password" as its value. *)
Theorem password_rule_exact_match :
  findings (trace (default_password_checks (VDict [("password", VStr "password")]))) =
    [DefaultPassword]
  /\ findings (trace (default_password_checks (VDict [("password", VStr "S3cure!")]))) = []
  /\ forall items,
       outcome (default_password_checks (VDict items)) = inr tt
       /\ (In DefaultPassword (findings (trace (default_password_checks (VDict items))))
           <-> dict_get "password" items = Some (VStr "password"))
       /\ (In DefaultAdminPassword
              (findings (trace (default_password_checks (VDict items))))
           <-> dict_get "password" items <> Some (VStr "password")
               /\ dict_get "admin_password" items = Some (VStr "admin")).
Proof.
  split; [reflexivity | split; [reflexivity |]].
  intros items; split.
  - rewrite default_password_checks_dict.
    destruct (holds_default items "password" "password"); [reflexivity |].
    destruct (holds_default items "admin_password" "admin"); reflexivity.
  - split.
    + rewrite findings_dict, <- holds_default_true.
      destruct (holds_default items "password" "password").
      * split; intros _; [reflexivity | left; reflexivity].
      * split; [| intros H; discriminate H].
        destruct (holds_default items "admin_password" "admin"); simpl.
        -- intros [H | []]; discriminate H.
        -- intros [].
    + rewrite findings_dict, <- !holds_default_true.
      destruct (holds_default items "password" "password").
      * split; [intros [H | []]; discriminate H | intros [H _]; now elim H].
      * destruct (holds_default items "admin_password" "admin"); simpl.
        -- split; [intros _; split; [discriminate | reflexivity] | now left].
        -- split; [intros [] | intros [_ H]; discriminate H].
Qed.

(** C10.  The checks look at the keys of the root object only: when the root
    has no [password] equal to "password" and no [admin_password] equal to
    "admin", they report no finding and log "No default password found",
    whatever the values nested below the root hold. *)
Theorem scan_is_top_level_only items :
  dict_get "password" items <> Some (VStr "password") ->
  dict_get "admin_password" items <> Some (VStr "admin") ->
  default_password_checks (VDict items) = ([EvLog INFO msg_no_default], inr tt)
  /\ findings (trace (default_password_checks (VDict items))) = [].
Proof.
  intros Hpw Hadmin.
  rewrite <- holds_default_true in Hpw, Hadmin.
  apply not_true_is_false in Hpw, Hadmin.
  rewrite default_password_checks_dict, Hpw, Hadmin; split; reflexivity.
Qed.

Lemma scan_is_top_level_only_witness :
  Fixture.doc_nested =
    VDict [("db", VDict [("password", VStr "password"); ("admin_password", VStr "admin")])]
  /\ default_password_checks Fixture.doc_nested = ([EvLog INFO msg_no_default], inr tt)
  /\ findings (trace (default_password_checks Fixture.doc_nested)) = [].
Proof.
  split; [reflexivity |].
  apply (scan_is_top_level_only
           [("db", VDict [("password", VStr "password"); ("admin_password", VStr "admin")])]);
    simpl; discriminate.
Defined.

(** C6 fails on the code.  A document that parses to [None] (an empty YAML
    file) makes the checks raise [TypeError]; the run logs it as an
    unexpected error and ends with status 1.  The same happens for a list or
    a string that contains the word looked for. *)
Theorem checks_raise_on_non_mapping :
  default_password_checks VNull =
    ([], inl (new_exc TypeError "argument of type 'NoneType' is not iterable"))
  /\ default_password_checks (VList [VStr "password"]) =
       ([], inl (new_exc TypeError "list indices must be integers or slices, not str"))
  /\ yaml_safe_load Fixture.w0 "" = inr VNull
  /\ main Fixture.w0 (mkArgs "empty.yaml" None None INFO) =
       ([EvSetLevel INFO; EvExists "empty.yaml"; EvOpen "empty.yaml"; EvYamlLoad "";
         EvLog DEBUG "Configuration loaded successfully from: empty.yaml";
         EvLog WARNING msg_skipping;
         EvLog ERROR
           "An unexpected error occurred: argument of type 'NoneType' is not iterable";
         EvExit 1], 1%Z).
Proof. repeat split. Qed.

(** On a document object the checks always return. *)
Lemma checks_return_on_mapping items :
  outcome (default_password_checks (VDict items)) = inr tt.
Proof.
  rewrite default_password_checks_dict.
  destruct (holds_default items "password" "password"); [reflexivity |].
  destruct (holds_default items "admin_password" "admin"); reflexivity.
Qed.

(** ** Runs of [main] *)

Lemma main_try_stages w args :
  main_try w args =
  (config_data <- load_config_file w (arg_config_file args) (arg_type args) ;;
   logging DEBUG ("Configuration loaded successfully from: " ++ arg_config_file args) ;;;
   validation_stage w args config_data ;;;
   default_password_checks config_data).
Proof. reflexivity. Qed.

(** A run, stage by stage: the first stage that raises ends it. *)
Lemma main_stages w args :
  main w args =
  let start := EvSetLevel (arg_log_level args) in
  let loaded :=
    EvLog DEBUG ("Configuration loaded successfully from: " ++ arg_config_file args) in
  match load_config_file w (arg_config_file args) (arg_type args) with
  | (t1, inl e) => (start :: t1 ++ [except_log e; EvExit 1], 1%Z)
  | (t1, inr d) =>
      match validation_stage w args d with
      | (t2, inl e) => (start :: t1 ++ loaded :: t2 ++ [except_log e; EvExit 1], 1%Z)
      | (t2, inr _) =>
          match default_password_checks d with
          | (t3, inl e) =>
              (start :: t1 ++ loaded :: t2 ++ t3 ++ [except_log e; EvExit 1], 1%Z)
          | (t3, inr _) => (start :: t1 ++ loaded :: t2 ++ t3, 0%Z)
          end
      end
  end%list.
Proof.
  unfold main; rewrite main_try_stages; unfold bind, emit, logging; simpl.
  destruct (load_config_file w (arg_config_file args) (arg_type args)) as [t1 [e | d]];
    simpl; [reflexivity |].
  destruct (validation_stage w args d) as [t2 [e | u]]; simpl.
  - now repeat (rewrite <- app_assoc; cbn [app]).
  - destruct (default_password_checks d) as [t3 [e | u']]; simpl;
      now repeat (rewrite <- app_assoc; cbn [app]).
Qed.

(** Without a schema path the stage only logs that validation is skipped. *)
Lemma validation_stage_skipped w args d :
  arg_schema_file args = None \/ arg_schema_file args = Some "" ->
  validation_stage w args d = ([EvLog WARNING msg_skipping], inr tt).
Proof. unfold validation_stage; intros [H | H]; rewrite H; reflexivity. Qed.

(** With a schema path: load the schema, then validate. *)
Lemma validation_stage_given w args d c s :
  arg_schema_file args = Some (String c s) ->
  validation_stage w args d =
  match load_schema_file w (String c s) with
  | (t, inl e) => (t, inl e)
  | (t, inr schema) =>
      let loaded := EvLog DEBUG ("Schema loaded successfully from: " ++ String c s) in
      match outcome (validate_config w d schema) with
      | inl e => (t ++ [loaded; EvValidate d schema], inl e)
      | inr _ => (t ++ [loaded; EvValidate d schema; EvLog INFO msg_valid], inr tt)
      end
  end%list.
Proof.
  intros H; unfold validation_stage; rewrite H.
  unfold bind, logging, emit.
  destruct (load_schema_file w (String c s)) as [t [e | schema]]; [reflexivity |].
  rewrite validate_config_eq; simpl.
  destruct (jsonschema_validate w d schema); reflexivity.
Qed.

(** Traces made of file-system and parser calls only. *)
Lemma io_trace_plain t :
  forallb is_io t = true ->
  validation_ran t = false /\ scan_ran t = false /\ declared_valid t = false
  /\ declared_unvalidated t = false /\ logged_violations t = [] /\ findings t = [].
Proof.
  intros H; repeat split;
    first [ apply (existsb_none _ is_io) | apply (flat_map_none _ is_io) ];
    try exact H; intros ev Hev; apply io_plain in Hev; tauto.
Qed.

(** The four ways the default-password checks can end. *)
Lemma default_password_checks_cases d :
  (exists e, default_password_checks d = ([], inl e)
             /\ isinstance e ValidationError = false)
  \/ default_password_checks d = ([EvLog WARNING msg_default_password], inr tt)
  \/ default_password_checks d = ([EvLog WARNING msg_default_admin_password], inr tt)
  \/ default_password_checks d = ([EvLog INFO msg_no_default], inr tt).
Proof.
  destruct d as [| b | z | bits | s | xs | items];
    try (left; eexists; split; reflexivity).
  - unfold default_password_checks, has_default, bind, lift, ret, logging, emit; simpl.
    destruct (str_contains "password" s); simpl;
      [left; eexists; split; reflexivity |].
    destruct (str_contains "admin_password" s); simpl;
      [left; eexists; split; reflexivity | tauto].
  - unfold default_password_checks, has_default, bind, lift, ret, logging, emit; simpl.
    destruct (existsb _ xs); simpl; [left; eexists; split; reflexivity |].
    destruct (existsb _ xs); simpl; [left; eexists; split; reflexivity | tauto].
  - rewrite default_password_checks_dict.
    destruct (holds_default items "password" "password"); [tauto |].
    destruct (holds_default items "admin_password" "admin"); tauto.
Qed.

Lemma except_log_violation e :
  logged_violation (except_log e) = if isinstance e ValidationError then [e] else [].
Proof.
  unfold except_log.
  destruct e as [[] m l]; reflexivity.
Qed.

Lemma validate_config_raises w d schema e :
  outcome (validate_config w d schema) = inl e ->
  exc_class e = ValidationError \/ exc_class e = Exception.
Proof.
  rewrite validate_config_eq; simpl.
  destruct (jsonschema_validate w d schema) as [e0 |]; [| discriminate].
  destruct (isinstance e0 ValidationError); intros H; inversion H; simpl; tauto.
Qed.

Ltac app_facts :=
  unfold validation_ran, scan_ran, declared_valid, declared_unvalidated,
    logged_violations, findings in *;
  simpl; repeat (progress (rewrite ?existsb_app, ?flat_map_app; simpl)).

Lemma checks_trace_plain d :
  let t := trace (default_password_checks d) in
  validation_ran t = false /\ declared_valid t = false
  /\ declared_unvalidated t = false /\ logged_violations t = [].
Proof.
  destruct (default_password_checks_cases d) as [(e & H & _) | [H | [H | H]]];
    rewrite H; repeat split; reflexivity.
Qed.

Lemma validation_stage_plain w args d :
  let t := trace (validation_stage w args d) in
  scan_ran t = false /\ logged_violations t = [] /\ findings t = [].
Proof.
  destruct (arg_schema_file args) as [[| c s] |] eqn:Hs.
  - rewrite validation_stage_skipped by tauto; repeat split; reflexivity.
  - rewrite (validation_stage_given w args d c s Hs).
    pose proof (load_schema_file_io w (String c s)) as Hio.
    destruct (load_schema_file w (String c s)) as [t [e | schema]]; simpl in Hio.
    + apply io_trace_plain in Hio; simpl; tauto.
    + apply io_trace_plain in Hio as (_ & Hscan & _ & _ & Hviol & Hfind).
      destruct (outcome (validate_config w d schema)); app_facts;
        rewrite ?Hscan, ?Hviol, ?Hfind; repeat split; reflexivity.
  - rewrite validation_stage_skipped by tauto; repeat split; reflexivity.
Qed.

(** A run logs at most one violation. *)
Lemma main_logs_at_most_one_violation w args :
  (length (logged_violations (fst (main w args))) <= 1)%nat.
Proof.
  rewrite main_stages; cbv zeta.
  pose proof (load_config_file_io w (arg_config_file args) (arg_type args)) as Hio.
  destruct (load_config_file w (arg_config_file args) (arg_type args)) as [t1 [e | d]];
    simpl in Hio; apply io_trace_plain in Hio as (_ & _ & _ & _ & Hv1 & _).
  - app_facts; rewrite Hv1, except_log_violation.
    destruct (isinstance e ValidationError); simpl; lia.
  - pose proof (validation_stage_plain w args d) as (_ & Hv2 & _).
    destruct (validation_stage w args d) as [t2 [e | u]]; simpl in Hv2.
    + app_facts; rewrite Hv1, Hv2, except_log_violation.
      destruct (isinstance e ValidationError); simpl; lia.
    + pose proof (checks_trace_plain d) as (_ & _ & _ & Hv3).
      destruct (default_password_checks d) as [t3 [e | u']]; simpl in Hv3;
        app_facts; rewrite ?Hv1, ?Hv2, ?Hv3, ?except_log_violation; simpl;
        [destruct (isinstance e ValidationError); simpl; lia | lia].
Qed.

(** C7.  A run without a schema path ([--schema_file] absent or empty) never
    calls the validator, never logs that the configuration is valid and logs
    no violation; it logs the warning "No schema file provided. Skipping
    validation." exactly when the document was loaded. *)
Theorem no_schema_means_unvalidated w config_file schema_file file_type lvl :
  schema_file = None \/ schema_file = Some "" ->
  let run := main w (mkArgs config_file schema_file file_type lvl) in
  validation_ran (fst run) = false
  /\ declared_valid (fst run) = false
  /\ logged_violations (fst run) = []
  /\ declared_unvalidated (fst run) =
       match outcome (load_config_file w config_file file_type) with
       | inr _ => true
       | inl _ => false
       end.
Proof.
  intros Hs; cbv zeta; rewrite main_stages; cbv zeta; simpl arg_config_file;
    simpl arg_type; simpl arg_log_level.
  pose proof (load_config_file_io w config_file file_type) as Hio.
  pose proof (load_config_file_raises w config_file file_type) as Hcls.
  destruct (load_config_file w config_file file_type) as [t1 [e | d]];
    simpl in Hio; apply io_trace_plain in Hio as (Hr1 & _ & Hd1 & Hu1 & Hv1 & _).
  - specialize (Hcls t1 e eq_refl); apply loader_class_not_validation in Hcls.
    destruct (except_log_plain e) as (He1 & _ & He3 & He4 & _).
    app_facts.
    rewrite Hr1, Hd1, Hu1, Hv1, He1, He3, He4, except_log_violation, Hcls.
    repeat split; reflexivity.
  - rewrite validation_stage_skipped by exact Hs.
    destruct (default_password_checks_cases d) as [(e & H & He) | [H | [H | H]]];
      rewrite H; app_facts; rewrite Hr1, Hd1, Hu1, Hv1;
      rewrite ?orb_true_r, ?except_log_violation, ?He; simpl;
      try (repeat split; reflexivity).
    destruct (except_log_plain e) as (He1 & _ & He3 & He4 & _).
    rewrite He1, He3; repeat split; reflexivity.
Qed.

Lemma no_schema_means_unvalidated_witness :
  validation_ran (fst (main Fixture.w0 (mkArgs "config.yaml" None None INFO))) = false
  /\ declared_valid (fst (main Fixture.w0 (mkArgs "config.yaml" None None INFO))) = false
  /\ logged_violations (fst (main Fixture.w0 (mkArgs "config.yaml" None None INFO))) = []
  /\ declared_unvalidated (fst (main Fixture.w0 (mkArgs "config.yaml" None None INFO))) =
       true.
Proof.
  apply (no_schema_means_unvalidated Fixture.w0 "config.yaml" None None INFO).
  left; reflexivity.
Defined.

(** C8.  When loading the document or loading the schema fails, the run
    stops there: after the calls of the loaders it only logs the error and
    exits with status 1; the validator is not called and none of the lines
    of the default-password checks is logged. *)
Theorem load_failure_aborts_run w args :
  document_load_fails w args \/ schema_load_fails w args ->
  (exists t e,
      main w args =
        ((EvSetLevel (arg_log_level args) :: t ++ [except_log e; EvExit 1])%list, 1%Z)
      /\ forallb is_loading t = true)
  /\ validation_ran (fst (main w args)) = false
  /\ scan_ran (fst (main w args)) = false.
Proof.
  intros Hfail.
  assert (Hshape : exists t e,
             main w args =
               ((EvSetLevel (arg_log_level args) :: t ++ [except_log e; EvExit 1])%list,
                1%Z)
             /\ forallb is_loading t = true).
  { rewrite main_stages; cbv zeta.
    pose proof (load_config_file_io w (arg_config_file args) (arg_type args)) as Hio.
    destruct (load_config_file w (arg_config_file args) (arg_type args))
      as [t1 [e | d]] eqn:Hload; simpl in Hio.
    - exists t1, e; split; [reflexivity |].
      unfold is_loading; rewrite forallb_forall in *; intros ev Hev.
      now rewrite (Hio ev Hev).
    - destruct Hfail as [(t & e & H) | (c & s & t & e & Hs & H)];
        [rewrite Hload in H; discriminate H |].
      rewrite (validation_stage_given w args d c s Hs), H.
      pose proof (load_schema_file_io w (String c s)) as Hio2.
      rewrite H in Hio2; simpl in Hio2.
      eexists (t1 ++ _ :: t)%list, e; split.
      + now repeat (rewrite <- app_assoc; cbn [app]).
      + rewrite forallb_app; cbn [forallb].
        assert (Hall : forall l, forallb is_io l = true -> forallb is_loading l = true).
        { intros l Hl; unfold is_loading; rewrite forallb_forall in *; intros ev Hev.
          now rewrite (Hl ev Hev). }
        rewrite (Hall t1 Hio), (Hall t Hio2); reflexivity. }
  split; [exact Hshape |].
  destruct Hshape as (t & e & Hmain & Ht); rewrite Hmain.
  destruct (except_log_plain e) as (He1 & He2 & _).
  assert (Hquiet : forall ev, is_loading ev = true ->
                              is_validate ev = false /\ is_scan ev = false).
  { intros [] H; try discriminate H; split; try reflexivity.
    destruct lvl; try discriminate H; reflexivity. }
  app_facts; rewrite He1, He2.
  rewrite (existsb_none is_validate is_loading t), (existsb_none is_scan is_loading t);
    try exact Ht; try (intros ev Hev; apply Hquiet in Hev; tauto).
  split; reflexivity.
Qed.

Lemma load_failure_aborts_run_witness :
  (validation_ran (fst (main Fixture.w0 (mkArgs "broken.json" (Some "schema.json") None INFO)))
     = false
   /\ scan_ran (fst (main Fixture.w0 (mkArgs "broken.json" (Some "schema.json") None INFO)))
     = false)
  /\ (validation_ran
        (fst (main Fixture.w0 (mkArgs "host.json" (Some "broken_schema.json") None INFO)))
      = false
      /\ scan_ran
           (fst (main Fixture.w0 (mkArgs "host.json" (Some "broken_schema.json") None INFO)))
         = false).
Proof.
  split.
  - apply (load_failure_aborts_run Fixture.w0
             (mkArgs "broken.json" (Some "schema.json") None INFO)).
    left; eexists; eexists; reflexivity.
  - apply (load_failure_aborts_run Fixture.w0
             (mkArgs "host.json" (Some "broken_schema.json") None INFO)).
    right; do 4 eexists; split; reflexivity.
Defined.

(** ** Validation *)

(** C1, as stated, fails.  The empty document violates the schema
    [required: host, port] twice by the specification's validator, once for
    each key; [validate_config] hands its caller at most one violation,
    whatever the library does, so it cannot report both. *)
Lemma two_missing_keys_one_report :
  let schema_data := VDict [("required", VList [VStr "host"; VStr "port"])] in
  let violations :=
    SpecValidator.validate (VDict []) (SpecValidator.required_only ["host"; "port"]) in
  length (SpecValidator.missing_of "host" violations) = 1%nat
  /\ length (SpecValidator.missing_of "port" violations) = 1%nat
  /\ length violations = 2%nat
  /\ (forall w,
        (length (reported_violations (validate_config w (VDict []) schema_data)) < 2)%nat)
  /\ reported_violations (validate_config Fixture.w_reject (VDict []) schema_data) =
       [new_exc ValidationError
          "Configuration validation error: 'port' is a required property"].
Proof.
  repeat split; try reflexivity.
  intros w; rewrite validate_config_eq; unfold reported_violations; simpl.
  destruct (jsonschema_validate w _ _) as [e |]; simpl; [| lia].
  destruct (isinstance e ValidationError); simpl; lia.
Qed.

(** C1, amended.  Validation is fail-fast: [validate_config] calls the
    library once; it returns nothing when the library returns, and otherwise
    raises one exception, a [ValidationError] that wraps the library's
    [ValidationError] or a generic exception for anything else.  Its caller
    therefore gets at most one violation per document, and a run logs at
    most one. *)
Theorem validate_config_fail_fast w config_data schema_data :
  validate_config w config_data schema_data =
    ([EvValidate config_data schema_data],
     match jsonschema_validate w config_data schema_data with
     | None => inr tt
     | Some e =>
         inl (if isinstance e ValidationError then
                new_exc ValidationError ("Configuration validation error: " ++ py_str e)
              else
                new_exc Exception
                  ("An unexpected error occurred during validation: " ++ py_str e))
     end)
  /\ (length (reported_violations (validate_config w config_data schema_data)) <= 1)%nat
  /\ (forall args, (length (logged_violations (fst (main w args))) <= 1)%nat).
Proof.
  split; [apply validate_config_eq | split; [| apply main_logs_at_most_one_violation]].
  rewrite validate_config_eq; unfold reported_violations; simpl.
  destruct (jsonschema_validate w config_data schema_data) as [e |]; simpl; [| lia].
  destruct (isinstance e ValidationError); simpl; lia.
Qed.

(** ** Further properties of a run *)



(** A violation is a failure: when the library raises a [ValidationError],
    the run logs it and ends with status 1 before the default-password
    checks. *)
Theorem violation_fails_run w args c s t1 d t2 schema e :
  load_config_file w (arg_config_file args) (arg_type args) = (t1, inr d) ->
  arg_schema_file args = Some (String c s) ->
  load_schema_file w (String c s) = (t2, inr schema) ->
  jsonschema_validate w d schema = Some e ->
  isinstance e ValidationError = true ->
  snd (main w args) = 1%Z
  /\ scan_ran (fst (main w args)) = false
  /\ logged_violations (fst (main w args)) =
       [new_exc ValidationError ("Configuration validation error: " ++ py_str e)].
Proof.
  intros Hload Hs Hschema Hval He.
  pose proof (load_config_file_io w (arg_config_file args) (arg_type args)) as Hio1.
  pose proof (load_schema_file_io w (String c s)) as Hio2.
  rewrite Hload in Hio1; rewrite Hschema in Hio2; simpl in Hio1, Hio2.
  apply io_trace_plain in Hio1 as (_ & Hs1 & _ & _ & Hv1 & _).
  apply io_trace_plain in Hio2 as (_ & Hs2 & _ & _ & Hv2 & _).
  rewrite main_stages; cbv zeta.
  rewrite Hload, (validation_stage_given w args d c s Hs), Hschema.
  rewrite validate_config_eq; cbn [outcome snd]; rewrite Hval, He.
  app_facts; rewrite Hs1, Hs2, Hv1, Hv2.
  repeat split; reflexivity.
Qed.

Lemma violation_fails_run_witness :
  snd (main Fixture.w_reject (mkArgs "host.json" (Some "schema.json") None INFO)) = 1%Z
  /\ scan_ran (fst (main Fixture.w_reject (mkArgs "host.json" (Some "schema.json") None INFO)))
     = false
  /\ logged_violations
       (fst (main Fixture.w_reject (mkArgs "host.json" (Some "schema.json") None INFO))) =
     [new_exc ValidationError
        "Configuration validation error: 'port' is a required property"].
Proof.
  eapply (violation_fails_run Fixture.w_reject
            (mkArgs "host.json" (Some "schema.json") None INFO) _ _ _ _ _ _
            (new_exc ValidationError "'port' is a required property"));
    reflexivity.
Defined.

(** ** Strings *)

Lemma length_app (a b : string) :
  String.length (a ++ b) = (String.length a + String.length b)%nat.
Proof. induction a as [| c a IH]; simpl; [reflexivity | now rewrite IH]. Qed.

Lemma substring_skip (a b : string) (n m : nat) :
  String.substring (String.length a + n) m (a ++ b) = String.substring n m b.
Proof. induction a as [| c a IH]; simpl; [reflexivity | exact IH]. Qed.

(** A suffix test on [a ++ b] only looks at [b] when [b] is long enough. *)
Lemma endswith_app (a b suffix : string) :
  (String.length suffix <= String.length b)%nat ->
  endswith (a ++ b) suffix = endswith b suffix.
Proof.
  intros Hlen; unfold endswith; rewrite length_app.
  replace (String.length a + String.length b - String.length suffix)%nat
    with (String.length a + (String.length b - String.length suffix))%nat by lia.
  rewrite substring_skip.
  replace (String.length suffix <=? String.length a + String.length b)%nat with true
    by (symmetry; apply Nat.leb_le; lia).
  replace (String.length suffix <=? String.length b)%nat with true
    by (symmetry; apply Nat.leb_le; lia).
  reflexivity.
Qed.

Lemma str_contains_tail needle c hay :
  str_contains needle hay = true -> str_contains needle (String c hay) = true.
Proof.
  intros H; cbn [str_contains]; rewrite H; apply orb_true_r.
Qed.

Lemma prefix_app (a b : string) : String.prefix a (a ++ b) = true.
Proof.
  induction a as [| c a IH]; simpl; [now destruct b |].
  destruct (ascii_dec c c) as [_ | Hc]; [exact IH | now elim Hc].
Qed.

Lemma prefix_split (a s : string) :
  String.prefix a s = true -> exists rest, s = a ++ rest.
Proof.
  revert s; induction a as [| c a IH]; intros s H.
  - exists s; reflexivity.
  - destruct s as [| c' s]; simpl in H; [discriminate H |].
    destruct (ascii_dec c c') as [-> | _]; [| discriminate H].
    destruct (IH s H) as [rest ->]; exists rest; reflexivity.
Qed.

Lemma str_contains_unfold needle hay :
  str_contains needle hay =
  String.prefix needle hay ||
  match hay with
  | EmptyString => false
  | String _ rest => str_contains needle rest
  end.
Proof. destruct hay; reflexivity. Qed.

Lemma str_contains_app (a needle rest : string) :
  str_contains needle (a ++ needle ++ rest) = true.
Proof.
  induction a as [| c a IH]; cbn [append].
  - now rewrite str_contains_unfold, prefix_app.
  - apply str_contains_tail, IH.
Qed.

Lemma append_empty_r (s : string) : s ++ "" = s.
Proof. induction s as [| c s IH]; simpl; [reflexivity | now rewrite IH]. Qed.

(** [str] of an exception built from a message alone is the message. *)
Lemma py_str_new_exc c msg : py_str (new_exc c msg) = msg.
Proof. unfold py_str, new_exc; simpl; apply append_empty_r. Qed.

(** A string that contains "admin_password" contains "password". *)
Lemma contains_admin_password s :
  str_contains "admin_password" s = true -> str_contains "password" s = true.
Proof.
  induction s as [| c s IH]; [intros H; discriminate H |].
  intros H; rewrite str_contains_unfold in H; apply orb_true_iff in H as [H | H].
  - apply prefix_split in H as [rest ->].
    apply (str_contains_app "admin_" "password" rest).
  - apply str_contains_tail, IH, H.
Qed.

(** ** The loaders, case by case *)

Lemma load_config_file_table w path file_type :
  load_config_file w path file_type =
  if os_path_exists w path then
    match open_read w path with
    | inl e => ([EvExists path; EvOpen path], inl (load_config_error e))
    | inr text =>
        match resolved_format path file_type with
        | Some fmt =>
            ([EvExists path; EvOpen path; parse_event fmt text],
             match parse_result w fmt text with
             | inr v => inr v
             | inl e => inl (load_config_error e)
             end)
        | None =>
            ([EvExists path; EvOpen path],
             inl (load_config_error
                    (new_exc ValueError
                       (match file_type with
                        | None => msg_undetermined
                        | Some _ => msg_unsupported
                        end))))
        end
    end
  else
    ([EvExists path],
     inl (new_exc FileNotFoundError ("Configuration file not found: " ++ path))).
Proof.
  unfold load_config_file, resolved_format, format_of_path, format_of_type,
    load_config_error, bind, try_except, call, ret, raise; simpl.
  destruct (os_path_exists w path); simpl; [| reflexivity].
  destruct (open_read w path) as [e | text]; simpl.
  - repeat (world_case; simpl); reflexivity.
  - destruct file_type as [t |]; simpl.
    + destruct (String.eqb t "yaml"); simpl.
      * destruct (yaml_safe_load w text) as [e | v]; simpl; [| reflexivity].
        repeat (world_case; simpl); reflexivity.
      * destruct (String.eqb t "json"); simpl; [| reflexivity].
        destruct (json_load w text) as [e | v]; simpl; [| reflexivity].
        repeat (world_case; simpl); reflexivity.
    + destruct (endswith path ".yaml" || endswith path ".yml"); simpl.
      * destruct (yaml_safe_load w text) as [e | v]; simpl; [| reflexivity].
        repeat (world_case; simpl); reflexivity.
      * destruct (endswith path ".json"); simpl; [| reflexivity].
        destruct (json_load w text) as [e | v]; simpl; [| reflexivity].
        repeat (world_case; simpl); reflexivity.
Qed.

Lemma load_schema_file_table w path :
  load_schema_file w path =
  if os_path_exists w path then
    match open_read w path with
    | inl e => ([EvExists path; EvOpen path], inl (load_schema_error e))
    | inr text =>
        ([EvExists path; EvOpen path; EvJsonLoad text],
         match json_load w text with
         | inr v => inr v
         | inl e => inl (load_schema_error e)
         end)
    end
  else
    ([EvExists path],
     inl (new_exc FileNotFoundError ("Schema file not found: " ++ path))).
Proof.
  unfold load_schema_file, load_schema_error, bind, try_except, call, raise; simpl.
  destruct (os_path_exists w path); simpl; [| reflexivity].
  destruct (open_read w path) as [e | text]; simpl.
  - destruct (isinstance e JSONDecodeError); reflexivity.
  - destruct (json_load w text) as [e | v]; simpl; [| reflexivity].
    destruct (isinstance e JSONDecodeError); reflexivity.
Qed.

Lemma load_config_error_class e :
  exc_class (load_config_error e) = YAMLError
  \/ exc_class (load_config_error e) = JSONDecodeError
  \/ exc_class (load_config_error e) = Exception.
Proof.
  unfold load_config_error.
  destruct (isinstance e YAMLError); [tauto |].
  destruct (isinstance e JSONDecodeError); tauto.
Qed.

(** The path is [stem ++ suffix] for one of the three known suffixes. *)
Lemma format_of_known_suffix stem suffix fmt :
  In (suffix, fmt) [(".yaml", Yaml); (".yml", Yaml); (".json", Json)] ->
  format_of_path (stem ++ suffix) = Some fmt.
Proof.
  unfold format_of_path.
  intros [H | [H | [H | []]]]; inversion H; subst; clear H.
  - rewrite (endswith_app stem ".yaml" ".yaml") by (simpl; lia); reflexivity.
  - rewrite (endswith_app stem ".yml" ".yml") by (simpl; lia).
    replace (endswith ".yml" ".yml") with true by reflexivity.
    now rewrite orb_true_r.
  - rewrite (endswith_app stem ".json" ".yaml"), (endswith_app stem ".json" ".yml"),
      (endswith_app stem ".json" ".json") by (simpl; lia).
    reflexivity.
Qed.

(** An explicit [file_type] decides alone how an existing, readable file is
    parsed: "yaml" calls the YAML parser and "json" the JSON parser whatever
    the suffix of the path, and any other value fails after the file has
    been opened, without a parser call, with the generic exception that wraps
    "Unsupported configuration file type". *)
Theorem type_override_decides_parser w path t text :
  os_path_exists w path = true ->
  open_read w path = inr text ->
  load_config_file w path (Some t) =
  match format_of_type t with
  | Some fmt =>
      ([EvExists path; EvOpen path; parse_event fmt text],
       match parse_result w fmt text with
       | inr v => inr v
       | inl e => inl (load_config_error e)
       end)
  | None =>
      ([EvExists path; EvOpen path],
       inl (new_exc Exception
              ("An unexpected error occurred while loading the configuration: "
                 ++ msg_unsupported)))
  end.
Proof.
  intros Hex Hopen; rewrite load_config_file_table, Hex, Hopen; cbn [resolved_format].
  destruct (format_of_type t); reflexivity.
Qed.

Lemma type_override_decides_parser_witness :
  unresolvable "config.txt" = true
  /\ load_config_file Fixture.w0 "config.txt" (Some "yaml") =
       ([EvExists "config.txt"; EvOpen "config.txt"; EvYamlLoad "password: password"],
        inr (VDict [("password", VStr "password")]))
  /\ load_config_file Fixture.w0 "config.yaml" (Some "xml") =
       ([EvExists "config.yaml"; EvOpen "config.yaml"],
        inl (new_exc Exception
               ("An unexpected error occurred while loading the configuration: "
                  ++ msg_unsupported))).
Proof.
  split; [reflexivity | split].
  - apply (type_override_decides_parser Fixture.w0 "config.txt" "yaml"
             "password: password"); reflexivity.
  - apply (type_override_decides_parser Fixture.w0 "config.yaml" "xml"
             "password: password"); reflexivity.
Defined.

(** Without a [file_type], the suffix of the path decides: an existing,
    readable file named [stem.yaml] or [stem.yml] goes to the YAML parser and
    one named [stem.json] to the JSON parser, for every [stem]; the parser
    gets the text of the file, its document is returned as it is and its
    exception leaves wrapped by the [except] clauses. *)
Theorem suffix_decides_parser w stem suffix fmt text :
  In (suffix, fmt) [(".yaml", Yaml); (".yml", Yaml); (".json", Json)] ->
  os_path_exists w (stem ++ suffix) = true ->
  open_read w (stem ++ suffix) = inr text ->
  load_config_file w (stem ++ suffix) None =
    ([EvExists (stem ++ suffix); EvOpen (stem ++ suffix); parse_event fmt text],
     match parse_result w fmt text with
     | inr v => inr v
     | inl e => inl (load_config_error e)
     end).
Proof.
  intros Hsuf Hex Hopen.
  rewrite load_config_file_table, Hex, Hopen; cbn [resolved_format].
  now rewrite (format_of_known_suffix stem suffix fmt Hsuf).
Qed.

Lemma suffix_decides_parser_witness :
  load_config_file Fixture.w0 "both.yml" None =
    ([EvExists "both.yml"; EvOpen "both.yml"; EvYamlLoad Fixture.both_text],
     inr Fixture.doc_both)
  /\ load_config_file Fixture.w0 "broken.json" None =
       ([EvExists "broken.json"; EvOpen "broken.json"; EvJsonLoad "{"],
        inl (mkExc JSONDecodeError
               "Error parsing JSON file: Expecting value: line 1 column 1 (char 0)"
               ": line 1 column 1 (char 0)")).
Proof.
  split.
  - apply (suffix_decides_parser Fixture.w0 "both" ".yml" Yaml Fixture.both_text);
      [right; left; reflexivity | reflexivity | reflexivity].
  - apply (suffix_decides_parser Fixture.w0 "broken" ".json" Json "{");
      [right; right; left; reflexivity | reflexivity | reflexivity].
Defined.

(** An exception leaves [load_config_file] as [FileNotFoundError] exactly
    when the existence check fails.  Once the file exists, whatever is
    raised by [open], by the choice of the format or by a parser leaves
    through the [except] clauses, as a [YAMLError], a [JSONDecodeError] or a
    plain [Exception]: the [ValueError] of an undetermined or unsupported
    type never reaches the caller as a [ValueError]. *)
Theorem load_config_file_error_classes w path file_type t e :
  load_config_file w path file_type = (t, inl e) ->
  (exc_class e = FileNotFoundError <-> os_path_exists w path = false)
  /\ (os_path_exists w path = true -> exists e0, e = load_config_error e0)
  /\ In (exc_class e) [FileNotFoundError; YAMLError; JSONDecodeError; Exception]
  /\ exc_class e <> ValueError.
Proof.
  rewrite load_config_file_table.
  destruct (os_path_exists w path).
  - intros H.
    assert (He : exists e0, e = load_config_error e0).
    { destruct (open_read w path) as [e0 | text]; [inversion H; eauto |].
      destruct (resolved_format path file_type) as [fmt |]; [| inversion H; eauto].
      destruct (parse_result w fmt text) as [e0 | v]; inversion H; eauto. }
    destruct He as [e0 ->].
    destruct (load_config_error_class e0) as [Hc | [Hc | Hc]]; rewrite Hc;
      repeat split; simpl; eauto 6; try discriminate; intros Hd; discriminate Hd.
  - intros H; inversion H; subst; simpl.
    repeat split; auto; try discriminate; intros Hd; discriminate Hd.
Qed.

Lemma load_config_file_error_classes_witness :
  load_config_file Fixture.w0 "config.txt" None =
    ([EvExists "config.txt"; EvOpen "config.txt"],
     inl (load_config_error (new_exc ValueError msg_undetermined)))
  /\ In (exc_class (load_config_error (new_exc ValueError msg_undetermined)))
        [FileNotFoundError; YAMLError; JSONDecodeError; Exception]
  /\ exc_class (load_config_error (new_exc ValueError msg_undetermined)) <> ValueError.
Proof.
  split; [reflexivity |].
  apply (load_config_file_error_classes Fixture.w0 "config.txt" None
           [EvExists "config.txt"; EvOpen "config.txt"]).
  reflexivity.
Defined.

(** The calls [load_config_file] makes: the existence check alone when the
    file is missing; the check and [open] when [open] fails or no format can
    be settled on; otherwise the check, [open] and one call of one parser, on
    the text [open] returned.  It never calls both parsers, never parses a
    file it could not open, and in the last case only it can return. *)
Theorem load_config_file_calls w path file_type :
  let t := trace (load_config_file w path file_type) in
  (os_path_exists w path = false /\ t = [EvExists path])
  \/ (os_path_exists w path = true /\ t = [EvExists path; EvOpen path]
      /\ exists e, outcome (load_config_file w path file_type) = inl e)
  \/ (os_path_exists w path = true
      /\ exists text fmt,
           open_read w path = inr text
           /\ resolved_format path file_type = Some fmt
           /\ t = [EvExists path; EvOpen path; parse_event fmt text]).
Proof.
  cbv zeta; rewrite load_config_file_table.
  destruct (os_path_exists w path); [| left; split; reflexivity].
  right.
  destruct (open_read w path) as [e | text]; [left; simpl; eauto |].
  destruct (resolved_format path file_type) as [fmt |].
  - right; split; [reflexivity |]. exists text, fmt; repeat split; reflexivity.
  - left; simpl; eauto.
Qed.

(** A schema is always read as JSON: [load_schema_file] never looks at the
    suffix of the path and never calls the YAML parser.  For an existing,
    readable file it calls the JSON parser once on the text of the file and
    returns its document unchanged; every failure after the existence check
    leaves as a [JSONDecodeError] or a plain [Exception]. *)
Theorem schema_is_always_json w path :
  existsb is_yaml_load (trace (load_schema_file w path)) = false
  /\ (forall text,
        os_path_exists w path = true ->
        open_read w path = inr text ->
        load_schema_file w path =
          ([EvExists path; EvOpen path; EvJsonLoad text],
           match json_load w text with
           | inr schema => inr schema
           | inl e => inl (load_schema_error e)
           end))
  /\ (forall t e,
        os_path_exists w path = true ->
        load_schema_file w path = (t, inl e) ->
        exc_class e = JSONDecodeError \/ exc_class e = Exception).
Proof.
  rewrite load_schema_file_table; split; [| split].
  - destruct (os_path_exists w path); [| reflexivity].
    destruct (open_read w path); reflexivity.
  - intros text Hex Hopen; rewrite Hex, Hopen; reflexivity.
  - intros t e Hex; rewrite Hex.
    assert (Hcls : forall e0, exc_class (load_schema_error e0) = JSONDecodeError
                              \/ exc_class (load_schema_error e0) = Exception).
    { intros e0; unfold load_schema_error; destruct (isinstance e0 JSONDecodeError);
        simpl; tauto. }
    destruct (open_read w path) as [e0 | text]; [intros H; inversion H; apply Hcls |].
    destruct (json_load w text) as [e0 | v]; intros H; inversion H; apply Hcls.
Qed.

Lemma schema_is_always_json_witness :
  existsb is_yaml_load (trace (load_schema_file w_yaml_schema "schema.yaml")) = false
  /\ load_schema_file w_yaml_schema "schema.yaml" =
       ([EvExists "schema.yaml"; EvOpen "schema.yaml"; EvJsonLoad "type: object"],
        inl (mkExc JSONDecodeError
               "Error parsing JSON schema file: Expecting value: line 1 column 1 (char 0)"
               ": line 1 column 1 (char 0)")).
Proof.
  destruct (schema_is_always_json w_yaml_schema "schema.yaml") as (Hyaml & Hjson & _).
  split; [exact Hyaml |].
  apply (Hjson "type: object"); reflexivity.
Defined.

(** ** Runs, continued *)

Lemma calm_trace t :
  forallb is_calm t = true ->
  filter is_error_log t = [] /\ existsb is_exit t = false.
Proof.
  induction t as [| ev t IH]; simpl; [split; reflexivity |].
  intros H; apply andb_true_iff in H as [Hev Ht].
  destruct (IH Ht) as [Hf He]; unfold is_calm in Hev.
  apply negb_true_iff, orb_false_iff in Hev as [H1 H2].
  now rewrite H1, H2, Hf, He.
Qed.

Lemma io_calm t : forallb is_io t = true -> forallb is_calm t = true.
Proof.
  rewrite !forallb_forall; intros H ev Hev; specialize (H ev Hev).
  destruct ev; try discriminate H; reflexivity.
Qed.

Lemma validation_stage_calm w args d :
  forallb is_calm (trace (validation_stage w args d)) = true.
Proof.
  destruct (arg_schema_file args) as [[| c s] |] eqn:Hs.
  - rewrite validation_stage_skipped by tauto; reflexivity.
  - rewrite (validation_stage_given w args d c s Hs).
    pose proof (load_schema_file_io w (String c s)) as Hio.
    destruct (load_schema_file w (String c s)) as [t [e | schema]]; simpl in Hio;
      apply io_calm in Hio; [exact Hio |].
    destruct (outcome (validate_config w d schema)); simpl;
      rewrite forallb_app, Hio; reflexivity.
  - rewrite validation_stage_skipped by tauto; reflexivity.
Qed.

Lemma except_log_is_error e :
  is_error_log (except_log e) = true /\ is_exit (except_log e) = false.
Proof. unfold except_log; split_cases; split; reflexivity. Qed.

(** The checks either raise at once or log one line and return. *)
Lemma checks_log_then_return d :
  (exists e, default_password_checks d = ([], inl e))
  \/ (exists ev, default_password_checks d = ([ev], inr tt)
                 /\ is_scan ev = true /\ is_calm ev = true
                 /\ length (finding_of ev) <= 1)%nat.
Proof.
  destruct (default_password_checks_cases d) as [(e & H & _) | [H | [H | H]]];
    rewrite H; [left; eauto | right ..]; eexists; repeat split; simpl; lia.
Qed.

(** A run ends in one of two ways.  Either every stage returned: the checks
    logged their line, no error line was logged, [sys.exit] was not called
    and the status is 0.  Or one stage raised: the run logged exactly one
    error line, as its last line, called [sys.exit(1)] once after it, logged
    none of the lines of the checks, and the status is 1. *)
Theorem exit_status_reflects_errors w args :
  let run := main w args in
  (snd run = 0%Z
   /\ scan_ran (fst run) = true
   /\ filter is_error_log (fst run) = []
   /\ existsb is_exit (fst run) = false)
  \/ (snd run = 1%Z
      /\ scan_ran (fst run) = false
      /\ exists t e,
           fst run = (t ++ [except_log e; EvExit 1])%list
           /\ filter is_error_log (fst run) = [except_log e]
           /\ existsb is_exit t = false).
Proof.
  cbv zeta; rewrite main_stages; cbv zeta.
  set (start := EvSetLevel (arg_log_level args)).
  set (loaded := EvLog DEBUG _).
  pose proof (load_config_file_io w (arg_config_file args) (arg_type args)) as Hio.
  destruct (load_config_file w (arg_config_file args) (arg_type args)) as [t1 [e | d]];
    simpl in Hio; pose proof (io_calm _ Hio) as Hc1;
    apply io_trace_plain in Hio as (_ & Hs1 & _).
  - right; destruct (except_log_plain e) as (_ & He2 & _).
    destruct (except_log_is_error e) as (He3 & He4).
    assert (Hc : forallb is_calm (start :: t1) = true) by (simpl; exact Hc1).
    destruct (calm_trace _ Hc) as [Hf Hx].
    split; [reflexivity | split].
    + app_facts; now rewrite Hs1, He2.
    + exists (start :: t1), e; cbn [fst].
      change (start :: t1 ++ [except_log e; EvExit 1])%list
        with ((start :: t1) ++ [except_log e; EvExit 1])%list.
      split; [reflexivity | split; [| exact Hx]].
      cbn [fst]; rewrite filter_app, Hf; simpl; now rewrite He3.
  - pose proof (validation_stage_calm w args d) as Hc2.
    pose proof (validation_stage_plain w args d) as (Hs2 & _).
    destruct (validation_stage w args d) as [t2 [e | u]]; simpl in Hc2, Hs2.
    + right; destruct (except_log_plain e) as (_ & He2 & _).
      destruct (except_log_is_error e) as (He3 & He4).
      assert (Hc : forallb is_calm (start :: t1 ++ loaded :: t2) = true).
      { simpl; rewrite forallb_app; simpl; now rewrite Hc1, Hc2. }
      destruct (calm_trace _ Hc) as [Hf Hx].
      split; [reflexivity | split].
      * app_facts; now rewrite Hs1, Hs2, He2.
      * exists (start :: t1 ++ loaded :: t2)%list, e.
        assert (Heq : (start :: t1 ++ loaded :: t2 ++ [except_log e; EvExit 1])%list
                      = ((start :: t1 ++ loaded :: t2) ++ [except_log e; EvExit 1])%list).
        { simpl; now repeat (rewrite <- app_assoc; cbn [app]). }
        cbn [fst]; rewrite Heq; split; [reflexivity | split; [| exact Hx]].
        cbn [fst]; rewrite filter_app, Hf; simpl; now rewrite He3.
    + destruct (checks_log_then_return d) as [[e H] | (ev & H & Hscan & Hcalm & _)];
        rewrite H.
      * right; destruct (except_log_plain e) as (_ & He2 & _).
        destruct (except_log_is_error e) as (He3 & He4).
        assert (Hc : forallb is_calm (start :: t1 ++ loaded :: t2) = true).
        { simpl; rewrite forallb_app; simpl; now rewrite Hc1, Hc2. }
        destruct (calm_trace _ Hc) as [Hf Hx].
        split; [reflexivity | split].
        -- app_facts; now rewrite Hs1, Hs2, He2.
        -- exists (start :: t1 ++ loaded :: t2)%list, e.
           assert (Heq : (start :: t1 ++ loaded :: t2 ++ [] ++ [except_log e; EvExit 1])%list
                         = ((start :: t1 ++ loaded :: t2)
                              ++ [except_log e; EvExit 1])%list).
           { simpl; now repeat (rewrite <- app_assoc; cbn [app]). }
           cbn [fst]; rewrite Heq; split; [reflexivity | split; [| exact Hx]].
           cbn [fst]; rewrite filter_app, Hf; simpl; now rewrite He3.
      * left.
        assert (Hc : forallb is_calm (start :: t1 ++ loaded :: t2 ++ [ev]) = true).
        { simpl; rewrite forallb_app; simpl; rewrite forallb_app; simpl.
          now rewrite Hc1, Hc2, Hcalm. }
        destruct (calm_trace _ Hc) as [Hf Hx].
        split; [reflexivity | split; [| split; assumption]].
        app_facts; rewrite Hscan; now rewrite !orb_true_r.
Qed.

(** A run reports at most one finding, and a run that reports one ends with
    status 0: the exit status never tells whether a default password was
    found. *)
Theorem at_most_one_finding_per_run w args :
  findings (fst (main w args)) = []
  \/ (exists f, findings (fst (main w args)) = [f] /\ snd (main w args) = 0%Z).
Proof.
  rewrite main_stages; cbv zeta.
  pose proof (load_config_file_io w (arg_config_file args) (arg_type args)) as Hio.
  destruct (load_config_file w (arg_config_file args) (arg_type args)) as [t1 [e | d]];
    simpl in Hio; apply io_trace_plain in Hio as (_ & _ & _ & _ & _ & Hf1).
  - left; destruct (except_log_plain e) as (_ & _ & _ & _ & He).
    app_facts; now rewrite Hf1, He.
  - pose proof (validation_stage_plain w args d) as (_ & _ & Hf2).
    destruct (validation_stage w args d) as [t2 [e | u]]; simpl in Hf2.
    + left; destruct (except_log_plain e) as (_ & _ & _ & _ & He).
      app_facts; now rewrite Hf1, Hf2, He.
    + destruct (default_password_checks_cases d) as [(e & H & _) | [H | [H | H]]];
        rewrite H.
      * left; destruct (except_log_plain e) as (_ & _ & _ & _ & He).
        app_facts; now rewrite Hf1, Hf2, He.
      * right; exists DefaultPassword; app_facts; now rewrite Hf1, Hf2.
      * right; exists DefaultAdminPassword; app_facts; now rewrite Hf1, Hf2.
      * left; app_facts; now rewrite Hf1, Hf2.
Qed.

(** Where the default-password checks return and where they raise.  They
    return on every dictionary; on a list exactly when neither "password"
    nor "admin_password" is one of its elements; on a string exactly when
    "password" does not occur in it; on [None], booleans and numbers never.
    When they do not return they raise a [TypeError] before logging
    anything. *)
Theorem checks_return_exactly_on d :
  if checks_return d then
    outcome (default_password_checks d) = inr tt
  else
    exists e, default_password_checks d = ([], inl e) /\ exc_class e = TypeError.
Proof.
  destruct d as [| b | z | bits | s | xs | items]; simpl;
    try (eexists; split; reflexivity).
  - unfold default_password_checks, has_default, bind, lift, ret, logging, emit; simpl.
    destruct (str_contains "password" s) eqn:Hpw; simpl;
      [eexists; split; reflexivity |].
    destruct (str_contains "admin_password" s) eqn:Hadmin; simpl; [| reflexivity].
    apply contains_admin_password in Hadmin; congruence.
  - unfold default_password_checks, has_default, bind, lift, ret, logging, emit; simpl.
    destruct (existsb (fun x => py_eq_str x "password") xs); simpl;
      [eexists; split; reflexivity |].
    destruct (existsb (fun x => py_eq_str x "admin_password") xs); simpl;
      [eexists; split; reflexivity | reflexivity].
  - apply checks_return_on_mapping.
Qed.

(** A run with a schema in which everything succeeds: the validator is
    called once, on the document and the schema exactly as the two loaders
    returned them; the run then logs that the configuration is valid and
    goes on to the default-password checks on the same document. *)
Theorem validated_run w args c s t1 d t2 schema :
  load_config_file w (arg_config_file args) (arg_type args) = (t1, inr d) ->
  arg_schema_file args = Some (String c s) ->
  load_schema_file w (String c s) = (t2, inr schema) ->
  jsonschema_validate w d schema = None ->
  fst (main w args) =
    (EvSetLevel (arg_log_level args) :: t1
     ++ EvLog DEBUG ("Configuration loaded successfully from: " ++ arg_config_file args)
     :: t2
     ++ [EvLog DEBUG ("Schema loaded successfully from: " ++ String c s);
         EvValidate d schema; EvLog INFO msg_valid]
     ++ trace (default_password_checks d)
     ++ match outcome (default_password_checks d) with
        | inl e => [except_log e; EvExit 1]
        | inr _ => []
        end)%list
  /\ declared_valid (fst (main w args)) = true
  /\ declared_unvalidated (fst (main w args)) = false.
Proof.
  intros Hload Hs Hschema Hval.
  pose proof (load_config_file_io w (arg_config_file args) (arg_type args)) as Hio1.
  pose proof (load_schema_file_io w (String c s)) as Hio2.
  rewrite Hload in Hio1; rewrite Hschema in Hio2; simpl in Hio1, Hio2.
  apply io_trace_plain in Hio1 as (_ & _ & Hd1 & Hu1 & _).
  apply io_trace_plain in Hio2 as (_ & _ & Hd2 & Hu2 & _).
  rewrite main_stages; cbv zeta.
  rewrite Hload, (validation_stage_given w args d c s Hs), Hschema.
  rewrite validate_config_eq; cbn [outcome snd]; rewrite Hval.
  pose proof (checks_trace_plain d) as (_ & _ & Hu3 & _).
  destruct (default_password_checks d) as [t3 [e | u]]; cbn [trace outcome fst snd] in *.
  - destruct (except_log_plain e) as (_ & _ & _ & He & _).
    split; [now repeat (rewrite <- app_assoc; cbn [app]) |].
    app_facts; rewrite Hd1, Hu1, Hd2, Hu2, Hu3, He.
    split; [now rewrite !orb_true_r | reflexivity].
  - split; [now repeat (rewrite <- app_assoc; cbn [app]); rewrite ?app_nil_r |].
    app_facts; rewrite Hd1, Hu1, Hd2, Hu2, Hu3.
    split; [now rewrite !orb_true_r | reflexivity].
Qed.

Lemma validated_run_witness :
  fst (main Fixture.w0 (mkArgs "host.json" (Some "schema.json") None INFO)) =
    [EvSetLevel INFO; EvExists "host.json"; EvOpen "host.json";
     EvJsonLoad Fixture.host_text;
     EvLog DEBUG "Configuration loaded successfully from: host.json";
     EvExists "schema.json"; EvOpen "schema.json";
     EvJsonLoad Fixture.schema_strng_text;
     EvLog DEBUG "Schema loaded successfully from: schema.json";
     EvValidate (VDict [("host", VStr "x")]) Fixture.schema_strng;
     EvLog INFO msg_valid;
     EvLog INFO msg_no_default].
Proof.
  apply (validated_run Fixture.w0 (mkArgs "host.json" (Some "schema.json") None INFO)
           "s" "chema.json"
           [EvExists "host.json"; EvOpen "host.json"; EvJsonLoad Fixture.host_text]
           (VDict [("host", VStr "x")])
           [EvExists "schema.json"; EvOpen "schema.json";
            EvJsonLoad Fixture.schema_strng_text]
           Fixture.schema_strng); reflexivity.
Defined.

(** When the library raises anything but a [ValidationError] (a
    [SchemaError] for a schema it rejects, say), the run does not report a
    violation: it logs "An unexpected error occurred: An unexpected error
    occurred during validation: ..." with the library's message, exits with
    status 1 and does not run the default-password checks. *)
Theorem library_error_is_unexpected w args c s t1 d t2 schema e :
  load_config_file w (arg_config_file args) (arg_type args) = (t1, inr d) ->
  arg_schema_file args = Some (String c s) ->
  load_schema_file w (String c s) = (t2, inr schema) ->
  jsonschema_validate w d schema = Some e ->
  isinstance e ValidationError = false ->
  snd (main w args) = 1%Z
  /\ scan_ran (fst (main w args)) = false
  /\ logged_violations (fst (main w args)) = []
  /\ filter is_error_log (fst (main w args)) =
       [EvLog ERROR
          ("An unexpected error occurred: "
             ++ ("An unexpected error occurred during validation: " ++ py_str e))].
Proof.
  intros Hload Hs Hschema Hval He.
  pose proof (load_config_file_io w (arg_config_file args) (arg_type args)) as Hio1.
  pose proof (load_schema_file_io w (String c s)) as Hio2.
  rewrite Hload in Hio1; rewrite Hschema in Hio2; simpl in Hio1, Hio2.
  destruct (calm_trace _ (io_calm _ Hio1)) as [Hf1 _].
  destruct (calm_trace _ (io_calm _ Hio2)) as [Hf2 _].
  apply io_trace_plain in Hio1 as (_ & Hs1 & _ & _ & Hv1 & _).
  apply io_trace_plain in Hio2 as (_ & Hs2 & _ & _ & Hv2 & _).
  rewrite main_stages; cbv zeta.
  rewrite Hload, (validation_stage_given w args d c s Hs), Hschema.
  rewrite validate_config_eq; cbn [outcome snd]; rewrite Hval, He.
  cbn [fst snd]; split; [reflexivity |].
  split; [app_facts; now rewrite Hs1, Hs2 |].
  split; [app_facts; now rewrite Hv1, Hv2 |].
  repeat first [rewrite filter_app | progress cbn [filter is_error_log]].
  rewrite Hf1, Hf2.
  change (except_log
            (new_exc Exception
               ("An unexpected error occurred during validation: " ++ py_str e)))
    with (EvLog ERROR
            ("An unexpected error occurred: "
               ++ py_str (new_exc Exception
                            ("An unexpected error occurred during validation: "
                               ++ py_str e)))).
  now rewrite py_str_new_exc.
Qed.

Lemma library_error_is_unexpected_witness :
  snd (main (Fixture.world Fixture.files Fixture.yaml_docs Fixture.json_docs reject_schema)
         (mkArgs "host.json" (Some "schema.json") None INFO)) = 1%Z
  /\ scan_ran
       (fst (main (Fixture.world Fixture.files Fixture.yaml_docs Fixture.json_docs
                     reject_schema)
               (mkArgs "host.json" (Some "schema.json") None INFO))) = false
  /\ logged_violations
       (fst (main (Fixture.world Fixture.files Fixture.yaml_docs Fixture.json_docs
                     reject_schema)
               (mkArgs "host.json" (Some "schema.json") None INFO))) = []
  /\ filter is_error_log
       (fst (main (Fixture.world Fixture.files Fixture.yaml_docs Fixture.json_docs
                     reject_schema)
               (mkArgs "host.json" (Some "schema.json") None INFO))) =
     [EvLog ERROR
        "An unexpected error occurred: An unexpected error occurred during validation: 'strng' is not valid under any of the given schemas"].
Proof.
  eapply (library_error_is_unexpected
            (Fixture.world Fixture.files Fixture.yaml_docs Fixture.json_docs reject_schema)
            (mkArgs "host.json" (Some "schema.json") None INFO) _ _ _ _ _ _
            (new_exc SchemaError "'strng' is not valid under any of the given schemas"));
    reflexivity.
Defined.

Lemma format_of_path_none path :
  format_of_path path = None <-> unresolvable path = true.
Proof.
  unfold format_of_path, unresolvable.
  destruct (endswith path ".yaml"), (endswith path ".yml"), (endswith path ".json");
    simpl; split; intros H; try discriminate H; reflexivity.
Qed.

(** With a [--type] that the command line accepts (absent, "yaml" or
    "json"), [load_config_file] on an existing, readable file does one of two
    things.  Either it calls exactly one parser on the text of the file and
    returns its document or its wrapped exception; or no type was given, the
    path has none of the three suffixes, no parser is called and the failure
    is the wrapped "Could not determine the file type".  The branch that
    raises "Unsupported configuration file type" is never taken. *)
Theorem cli_type_is_supported w path file_type text :
  cli_type file_type = true ->
  os_path_exists w path = true ->
  open_read w path = inr text ->
  (exists fmt,
      resolved_format path file_type = Some fmt
      /\ load_config_file w path file_type =
           ([EvExists path; EvOpen path; parse_event fmt text],
            match parse_result w fmt text with
            | inr v => inr v
            | inl e => inl (load_config_error e)
            end))
  \/ (file_type = None
      /\ unresolvable path = true
      /\ load_config_file w path file_type =
           ([EvExists path; EvOpen path],
            inl (new_exc Exception
                   ("An unexpected error occurred while loading the configuration: "
                      ++ msg_undetermined)))).
Proof.
  intros Hcli Hex Hopen; rewrite load_config_file_table, Hex, Hopen.
  destruct file_type as [t |]; cbn [resolved_format].
  - left; simpl in Hcli; rewrite orb_false_r in Hcli.
    unfold format_of_type.
    apply orb_true_iff in Hcli as [H | H]; rewrite H.
    + exists Yaml; split; reflexivity.
    + destruct (String.eqb t "yaml"); [exists Yaml | exists Json]; split; reflexivity.
  - destruct (format_of_path path) as [fmt |] eqn:Hfmt.
    + left; exists fmt; split; reflexivity.
    + right; apply format_of_path_none in Hfmt.
      split; [reflexivity | split; [exact Hfmt | reflexivity]].
Qed.

Lemma cli_type_is_supported_witness :
  load_config_file Fixture.w0 "config.txt" (Some "yaml") =
    ([EvExists "config.txt"; EvOpen "config.txt"; EvYamlLoad "password: password"],
     inr (VDict [("password", VStr "password")]))
  /\ load_config_file Fixture.w0 "config.txt" None =
       ([EvExists "config.txt"; EvOpen "config.txt"],
        inl (new_exc Exception
               ("An unexpected error occurred while loading the configuration: "
                  ++ msg_undetermined))).
Proof.
  split.
  - destruct (cli_type_is_supported Fixture.w0 "config.txt" (Some "yaml")
                "password: password" eq_refl eq_refl eq_refl)
      as [(fmt & Hfmt & Hload) | (Hnone & _)]; [| discriminate Hnone].
    inversion Hfmt; subst fmt; exact Hload.
  - destruct (cli_type_is_supported Fixture.w0 "config.txt" None
                "password: password" eq_refl eq_refl eq_refl)
      as [(fmt & Hfmt & _) | (_ & _ & Hload)]; [discriminate Hfmt | exact Hload].
Defined.

(** How a failure of [load_config_file] is reported.  A missing file and a
    YAML or JSON syntax error are logged as they are; every other failure
    (an error of [open], an undetermined type, any other exception of a
    parser) was already wrapped by the loader and is wrapped again by
    [main], so that its line starts with "An unexpected error occurred: An
    unexpected error occurred while loading the configuration: ".  In both
    cases the run ends there with status 1. *)
Theorem load_failure_report w args t e :
  load_config_file w (arg_config_file args) (arg_type args) = (t, inl e) ->
  main w args =
    ((EvSetLevel (arg_log_level args) :: t
      ++ [if ExcClass_eqb (exc_class e) Exception then
            EvLog ERROR ("An unexpected error occurred: " ++ py_str e)
          else EvLogExc ERROR e;
          EvExit 1])%list, 1%Z)
  /\ (ExcClass_eqb (exc_class e) Exception = true ->
      os_path_exists w (arg_config_file args) = true
      /\ exists e0,
           isinstance e0 YAMLError = false /\ isinstance e0 JSONDecodeError = false
           /\ py_str e =
                "An unexpected error occurred while loading the configuration: "
                  ++ py_str e0).
Proof.
  intros Hload; split.
  - rewrite main_stages; cbv zeta; rewrite Hload.
    pose proof (load_config_file_raises _ _ _ _ _ Hload) as Hcls.
    unfold except_log; destruct e as [[] m l]; simpl in Hcls; try discriminate Hcls;
      reflexivity.
  - rewrite load_config_file_table in Hload.
    destruct (os_path_exists w (arg_config_file args));
      [| inversion Hload; subst; intros H; discriminate H].
    intros Hgen; split; [reflexivity |].
    assert (He : exists e0, e = load_config_error e0).
    { destruct (open_read w _) as [e0 | text]; [inversion Hload; eauto |].
      destruct (resolved_format _ _) as [fmt |]; [| inversion Hload; eauto].
      destruct (parse_result w fmt text) as [e0 | v]; inversion Hload; eauto. }
    destruct He as [e0 ->]; exists e0; unfold load_config_error in *.
    destruct (isinstance e0 YAMLError); [discriminate Hgen |].
    destruct (isinstance e0 JSONDecodeError); [discriminate Hgen |].
    now rewrite py_str_new_exc.
Qed.

Lemma load_failure_report_witness :
  main Fixture.w0 (mkArgs "config.txt" None None INFO) =
    ([EvSetLevel INFO; EvExists "config.txt"; EvOpen "config.txt";
      EvLog ERROR
        "An unexpected error occurred: An unexpected error occurred while loading the configuration: Could not determine the file type. Please specify with --type";
      EvExit 1], 1%Z).
Proof.
  apply (load_failure_report Fixture.w0 (mkArgs "config.txt" None None INFO)
           [EvExists "config.txt"; EvOpen "config.txt"]
           (load_config_error (new_exc ValueError msg_undetermined))).
  reflexivity.
Defined.
